(** * server.js: Google sign-in, authorization policy and guarded session routes

    A shallow embedding of the three revisions of [server.js] found in the
    repository, together with the contracts of the middleware the file
    composes (Express routing, express-session, Passport, connect-flash),
    instantiated with the options the source passes to them.

    Strings are sequences of bytes (the UTF-8 text of the JavaScript string);
    all literals of the program are ASCII.  Times are milliseconds in [Z]. *)

From Stdlib Require Import ZArith String Ascii List Bool Lia.
From stdpp Require Import base option gmap strings list.

Local Open Scope string_scope.
Local Open Scope Z_scope.

(** ** JavaScript string primitives used by the source *)

Module JS.

(** [String.prototype.endsWith(searchString)] without a position argument:
    the last [length searchString] units of [s] are compared with
    [searchString]; a [searchString] longer than [s] gives [false]. *)
Definition endsWith (s searchString : string) : bool :=
  let len := String.length s in
  let searchLength := String.length searchString in
  if (len <? searchLength)%nat then false
  else String.eqb (substring (len - searchLength) searchLength s) searchString.

(** Strict equality [===] on two strings. *)
Definition strict_eq (a b : string) : bool := String.eqb a b.

Definition hex_digit (n : N) : ascii :=
  match n with
  | 0%N => "0" | 1%N => "1" | 2%N => "2" | 3%N => "3"
  | 4%N => "4" | 5%N => "5" | 6%N => "6" | 7%N => "7"
  | 8%N => "8" | 9%N => "9" | 10%N => "A" | 11%N => "B"
  | 12%N => "C" | 13%N => "D" | 14%N => "E" | _ => "F"
  end%char.

(** The characters [encodeURIComponent] leaves alone:
    [A-Z a-z 0-9 - _ . ! ~ * ' ( )]. *)
Definition uri_unreserved (c : ascii) : bool :=
  let n := N_of_ascii c in
  ((65 <=? n) && (n <=? 90) || (97 <=? n) && (n <=? 122)
   || (48 <=? n) && (n <=? 57)
   || (n =? 45) || (n =? 95) || (n =? 46) || (n =? 33) || (n =? 126)
   || (n =? 42) || (n =? 39) || (n =? 40) || (n =? 41))%N.

(** [encodeURIComponent]: every byte of the UTF-8 text outside the
    unreserved set becomes [%XX] with upper-case hexadecimal digits. *)
Fixpoint encodeURIComponent (s : string) : string :=
  match s with
  | EmptyString => EmptyString
  | String c rest =>
      if uri_unreserved c then String c (encodeURIComponent rest)
      else
        let n := N_of_ascii c in
        String "%" (String (hex_digit (n / 16)) (String (hex_digit (n mod 16))
                                                   (encodeURIComponent rest)))
  end.

End JS.

(** ** Data of the program *)

(** The object handed to [done] on success: [{ email, name, role }]. *)
Record User := { email : string; name : string; role : string }.

(** The fields of the provider's [profile] the verify callback reads.
    [emails] is [None] when the assertion carries no [emails] array; each
    entry of the array is represented by its [value]. *)
Record Profile := { emails : option (list string); displayName : string }.

#[global] Instance User_eq_dec : EqDecision User.
Proof. solve_decision. Defined.

(** The three ways the verify callback calls [done]. *)
Inductive Done :=
| done_user (user : User)          (* done(null, { email, name, role }) *)
| done_fail (message : string)     (* done(null, false, { message }) *)
| done_err.                        (* done(err, null), from the catch block *)

(** [profile.emails[0].value]; [None] stands for the TypeError thrown when
    the array or its first entry is missing. *)
Definition first_email (profile : Profile) : option string :=
  match emails profile with
  | Some (e :: _) => Some e
  | _ => None
  end.

Definition institutional_suffix : string := "@stu.pathfinder-mm.org".
Definition allow_listed : string := "avagarimike11@gmail.com".
Definition rejection_message : string :=
  "You are not a verified student of Pathfinder Institute Myanmar.".

(** *** server.js (and the identical callback of part_000) *)

(** Lines 83-90 of server.js: the pair [(role, isAuthorized)] after the
    "Custom Authorization Logic" block. *)
Definition authorize (email : string) : string * bool :=
  let role := "general" in
  let isAuthorized := false in
  if JS.endsWith email institutional_suffix || JS.strict_eq email allow_listed
  then ("student", true)
  else (role, isAuthorized).

(** The GoogleStrategy verify callback, server.js lines 80-102. *)
Definition verify (profile : Profile) : Done :=
  match first_email profile with
  | None => done_err
  | Some email =>
      let '(role, isAuthorized) := authorize email in
      if negb isAuthorized then done_fail rejection_message
      else done_user {| email := email; name := displayName profile; role := role |}
  end.

(** *** part_001: the revision with two separate if-statements *)

Module TwoIf.

(** Lines 86-97 of part_001. *)
Definition authorize (email : string) : string * bool :=
  let role := "general" in
  let isAuthorized := false in
  let '(role, isAuthorized) :=
    if JS.endsWith email institutional_suffix then ("student", true)
    else (role, isAuthorized) in
  let '(role, isAuthorized) :=
    if JS.strict_eq email allow_listed then ("student", true)
    else (role, isAuthorized) in
  (role, isAuthorized).

(** The verify callback of part_001, lines 83-109. *)
Definition verify (profile : Profile) : Done :=
  match first_email profile with
  | None => done_err
  | Some email =>
      let '(role, isAuthorized) := authorize email in
      if negb isAuthorized then done_fail rejection_message
      else done_user {| email := email; name := displayName profile; role := role |}
  end.

End TwoIf.

(** ** Responses of the Express application *)

Inductive JSON :=
| JBool (b : bool)
| JString (s : string).

(** What a request ends with.  [error_response] stands for [next(err)] and
    for an exception thrown by a handler: no route answers and the
    framework's error handler replies with status 500. *)
Inductive Response :=
| redirect (url : string)                 (* res.redirect(url) *)
| json (body : list (string * JSON))      (* res.json({ ... }) *)
| send (body : string)                    (* res.send(html) *)
| sendFile (path : list string)           (* res.sendFile(path.join(cwd, ...)) *)
| error_response.

(** ** Configuration read from the environment *)

Module Config.

(** [a || d] on an environment variable: unset and empty are falsy. *)
Definition or_default (a : option string) (d : string) : string :=
  match a with
  | Some v => if String.eqb v "" then d else v
  | None => d
  end.

(** [a === lit] on an environment variable. *)
Definition equals (a : option string) (lit : string) : bool :=
  match a with
  | Some v => String.eqb v lit
  | None => false
  end.

(** [app.get('env')]: Express sets it to [process.env.NODE_ENV ||
    'development'] when the application is created (line 14, after
    [dotenv.config()]), and the file never changes it. *)
Definition app_env (NODE_ENV : option string) : string :=
  or_default NODE_ENV "development".

(** [cookie.secure], server.js line 59 and part_000 line 62. *)
Definition secure (NODE_ENV : option string) : bool :=
  equals NODE_ENV "production" && negb (String.eqb (app_env NODE_ENV) "development").

(** [cookie.secure], part_001 line 62. *)
Definition secure_part_001 (NODE_ENV : option string) : bool :=
  equals NODE_ENV "production".

End Config.

(** ** The session middleware, as configured in server.js lines 50-64 *)

Definition saveUninitialized : bool := false.
Definition rolling : bool := true.
(** [cookie.maxAge], milliseconds. *)
Definition maxAge : Z := 14 * 24 * 60 * 60 * 1000.
(** [ttl] of the RedisStore, seconds (server.js line 37). *)
Definition ttl : Z := 14 * 24 * 60 * 60.

Record Cookie := { expires : Z; originalMaxAge : Z }.

(** A session object: its cookie, [session.passport.user] and the [error]
    list of [session.flash] ([None] while the session has no [flash] key). *)
Record Session := {
  cookie : Cookie;
  passport_user : option User;
  flash : option (list string)
}.

(** What express-session hashes to detect a change: the session without its
    cookie. *)
Definition hash (s : Session) : option User * option (list string) :=
  (passport_user s, flash s).

(** The environment of one request: the clock, whether the store answers
    (the in-memory store always does; [false] means every store call of the
    request calls back with an error), the generator of session ids, the
    session id of the request's cookie, the value of [NODE_ENV] and whether
    express-session sees the connection as secure (TLS, or an https
    [X-Forwarded-Proto] from the trusted proxy). *)
Record Env := {
  now : Z;
  store_up : bool;
  uid : nat -> string;
  cookieId : option string;
  NODE_ENV : option string;
  secure_connection : bool
}.

(** The request object as the middleware and the handlers mutate it, with
    the store it reads and writes. *)
Record Req := {
  sessionStore : gmap string Session;
  fresh : nat;
  sessionID : string;
  session : option Session;
  originalId : string;
  originalHash : option User * option (list string);
  user : option User
}.

Definition set_store (st : gmap string Session) (r : Req) : Req :=
  {| sessionStore := st; fresh := fresh r; sessionID := sessionID r;
     session := session r; originalId := originalId r;
     originalHash := originalHash r; user := user r |}.

Definition set_session (s : option Session) (r : Req) : Req :=
  {| sessionStore := sessionStore r; fresh := fresh r; sessionID := sessionID r;
     session := s; originalId := originalId r;
     originalHash := originalHash r; user := user r |}.

Definition set_user (u : option User) (r : Req) : Req :=
  {| sessionStore := sessionStore r; fresh := fresh r; sessionID := sessionID r;
     session := session r; originalId := originalId r;
     originalHash := originalHash r; user := u |}.

Definition set_cookie_of (c : Cookie) (s : Session) : Session :=
  {| cookie := c; passport_user := passport_user s; flash := flash s |}.

Definition set_passport_user (u : option User) (s : Session) : Session :=
  {| cookie := cookie s; passport_user := u; flash := flash s |}.

Definition set_flash (f : option (list string)) (s : Session) : Session :=
  {| cookie := cookie s; passport_user := passport_user s; flash := f |}.

(** [new Cookie(cookieOptions)]: setting [maxAge] sets
    [expires = Date.now() + maxAge]. *)
Definition new_cookie (e : Env) : Cookie :=
  {| expires := now e + maxAge; originalMaxAge := maxAge |}.

Definition new_session (e : Env) : Session :=
  {| cookie := new_cookie e; passport_user := None; flash := None |}.

(** The value [store.get] calls back with: a record that is absent and a
    record whose expiry has passed both read as "no session".  The
    in-memory store compares the expiry of the stored cookie with the
    clock; the Redis store gives the key a lifetime computed from the same
    expiry.  What the read does to the store is [store_after_get]. *)
Definition store_get (e : Env) (st : gmap string Session) (sid : string)
  : option Session :=
  match st !! sid with
  | Some s => if expires (cookie s) <=? now e then None else Some s
  | None => None
  end.

(** The store after [store.get]: a record found expired is deleted by the
    read (the in-memory store does it in [get]; in Redis the key is gone by
    then). *)
Definition store_after_get (e : Env) (st : gmap string Session) (sid : string)
  : gmap string Session :=
  match st !! sid with
  | Some s => if expires (cookie s) <=? now e then delete sid st else st
  | None => st
  end.

(** [store.generate(req)]: a new session under a new id. *)
Definition generate (e : Env) (r : Req) : Req :=
  {| sessionStore := sessionStore r; fresh := S (fresh r);
     sessionID := uid e (fresh r); session := Some (new_session e);
     originalId := originalId r; originalHash := originalHash r;
     user := user r |}.

(** The middleware function of [session({...})] up to its call of [next]:
    without a cookie a session is generated; with one the store is read,
    a store error is passed to [next(err)] ([None] here), a missing session
    is replaced by a generated one (over the store as the read left it) and
    a found one is inflated. *)
Definition session_middleware (e : Env) (st : gmap string Session) : option Req :=
  let generated (st' : gmap string Session) :=
    let blank := {| sessionStore := st'; fresh := O; sessionID := "";
                    session := None; originalId := "";
                    originalHash := (None, None); user := None |} in
    let r := generate e blank in
    {| sessionStore := st'; fresh := fresh r; sessionID := sessionID r;
       session := session r; originalId := sessionID r;
       originalHash := (None, None); user := None |} in
  match cookieId e with
  | None => Some (generated st)
  | Some sid =>
      if store_up e then
        match store_get e st sid with
        | Some s =>
            Some {| sessionStore := st; fresh := O; sessionID := sid;
                    session := Some s; originalId := sid;
                    originalHash := hash s; user := None |}
        | None => Some (generated (store_after_get e st sid))
        end
      else None
  end.

(** [passport.session()] with the identity [deserializeUser] of line 107:
    [req.user] is [req.session.passport.user]. *)
Definition passport_session (r : Req) : Req :=
  match session r with
  | Some s => set_user (passport_user s) r
  | None => r
  end.

(** [req.session.touch()]: the cookie's expiry restarts from its original
    max-age. *)
Definition touch (e : Env) (s : Session) : Session :=
  set_cookie_of {| expires := now e + originalMaxAge (cookie s);
                   originalMaxAge := originalMaxAge (cookie s) |} s.

Definition isModified (r : Req) (s : Session) : bool :=
  negb (bool_decide (originalId r = sessionID r))
  || negb (bool_decide (originalHash r = hash s)).

(** The wrapped [res.end]: nothing is written for a destroyed session;
    otherwise the session is touched and then saved when it was modified,
    or, when it is the unmodified session of the request's cookie, its
    stored record gets the touched cookie ([store.touch]).  With
    [resave: false] and no handler that keeps a session it saved itself
    under its original id, "should save" is "is modified".  A store error at
    this point comes after the response and leaves the store as it is. *)
Definition commit (e : Env) (r : Req) : gmap string Session :=
  match session r with
  | None => sessionStore r
  | Some s =>
      let s' := touch e s in
      if negb (store_up e) then sessionStore r
      else if isModified r s then <[sessionID r := s']> (sessionStore r)
      else if bool_decide (cookieId e = Some (sessionID r))
           then alter (set_cookie_of (cookie s')) (sessionID r) (sessionStore r)
           else sessionStore r
  end.

(** The gate of the header hook: a secure cookie is sent only on a
    connection seen as secure. *)
Definition cookie_withheld (e : Env) : bool :=
  Config.secure (NODE_ENV e) && negb (secure_connection e).

(** Whether the response carries the session cookie: [shouldSetCookie],
    and then the gate. *)
Definition shouldSetCookie (e : Env) (r : Req) : option string :=
  match session r with
  | None => None
  | Some s =>
      if cookie_withheld e then None
      else if bool_decide (cookieId e = Some (sessionID r))
      then (if rolling || isModified r s then Some (sessionID r) else None)
      else (if saveUninitialized || isModified r s then Some (sessionID r) else None)
  end.

(** A route handler (or a chain of them): it sees the environment and the
    request, may change the request and the store, and ends the request. *)
Definition Handler : Type := Env -> Req -> Req * Response.

Record Result := {
  response : Response;
  store_after : gmap string Session;
  set_cookie : option string
}.

(** One request through [app], for a path that [express.static] passes on:
    session middleware, [passport.session()], the route's handlers, then
    the commit of the session. *)
Definition serve (h : Handler) (e : Env) (st : gmap string Session) : Result :=
  match session_middleware e st with
  | None => {| response := error_response; store_after := st; set_cookie := None |}
  | Some r =>
      let '(r', resp) := h e (passport_session r) in
      {| response := resp; store_after := commit e r';
         set_cookie := shouldSetCookie e r' |}
  end.

(** ** Passport and connect-flash operations on the request *)

(** [req.isAuthenticated()]: whether [req.user] is set. *)
Definition isAuthenticated (r : Req) : bool :=
  match user r with Some _ => true | None => false end.

(** [req.logIn(user)] with the identity [serializeUser] of line 106: the
    session is regenerated (the old record destroyed, a new id drawn), the
    user is put under [session.passport.user] and the session is saved.
    The flag is [false] for a store error passed to the callback: the
    regeneration has then still drawn the new session, and [req.user] is
    cleared. *)
Definition req_logIn (e : Env) (r : Req) (u : User) : Req * bool :=
  if store_up e then
    let r1 := generate e (set_store (delete (sessionID r) (sessionStore r)) r) in
    let s := set_passport_user (Some u) (new_session e) in
    (set_user (Some u)
       (set_session (Some s)
          (set_store (<[sessionID r1 := s]> (sessionStore r1)) r1)), true)
  else (set_user None (generate e r), false).

(** [req.logout(cb)]: [req.user] is cleared, the user is removed from the
    session, the session is saved and then regenerated.  [None] is a store
    error passed to [cb]. *)
Definition req_logout (e : Env) (r : Req) : option Req :=
  match session r with
  | None => None
  | Some s =>
      if store_up e then
        let s1 := set_passport_user None s in
        let saved := <[sessionID r := s1]> (sessionStore r) in
        Some (generate e (set_user None (set_store (delete (sessionID r) saved) r)))
      else None
  end.

(** [req.session.destroy(cb)]: the session object is dropped from the
    request and its record deleted; [cb] runs whether or not the store
    answered. *)
Definition session_destroy (e : Env) (r : Req) : Req :=
  set_session None
    (if store_up e then set_store (delete (sessionID r) (sessionStore r)) r else r).

(** [req.flash("error", msg)]: append to [session.flash.error]. *)
Definition flash_push (msg : string) (r : Req) : Req :=
  match session r with
  | None => r
  | Some s => set_session (Some (set_flash (Some (default [] (flash s) ++ [msg])%list) s)) r
  end.

(** [req.flash("error")]: return the messages and remove them; the session
    keeps an (empty) [flash] object. *)
Definition flash_read (r : Req) : Req * list string :=
  match session r with
  | None => (r, [])
  | Some s => (set_session (Some (set_flash (Some []) s)) r, default [] (flash s))
  end.

(** ** Routes *)

(** What the Google strategy has when the callback URL is requested: the
    code exchange failed, the user refused consent at the provider (with or
    without a description), or the profile was fetched. *)
Inductive Exchange :=
| exchange_failed
| exchange_denied (description : option string)
| exchange_profile (profile : Profile).

(** A strategy failure under [failureFlash: true]: the message is flashed
    when it is a non-empty string; a missing or empty one is skipped. *)
Definition flash_failure (message : option string) (r : Req) : Req :=
  match message with
  | Some msg => if String.eqb msg "" then r else flash_push msg r
  | None => r
  end.

(** [passport.authenticate("google", { failureRedirect: "/auth/failure",
    failureFlash: true })] followed by the handler of lines 123-126.
    A strategy error is passed to [next(err)]; a failure flashes its message
    (when it has one) and redirects to [failureRedirect]; a success logs the
    user in and runs the handler. *)
Definition auth_google_callback (verify : Profile -> Done) (x : Exchange) : Handler :=
  fun e r =>
    match x with
    | exchange_failed => (r, error_response)
    | exchange_denied description =>
        (flash_failure description r, redirect "/auth/failure")
    | exchange_profile profile =>
        match verify profile with
        | done_err => (r, error_response)
        | done_fail msg => (flash_failure (Some msg) r, redirect "/auth/failure")
        | done_user u =>
            let '(r1, ok) := req_logIn e r u in
            if ok then (r1, redirect "/dashboard") else (r1, error_response)
        end
    end.

(** [app.get("/auth/failure", ...)], server.js lines 129-134. *)
Definition auth_failure : Handler :=
  fun e r =>
    let '(r1, messages) := flash_read r in
    let errorMessage :=
      match messages with
      | m :: _ => m
      | [] => "Login failed."
      end in
    let encodedMessage := JS.encodeURIComponent errorMessage in
    (r1, redirect ("/index.html?authError=" +:+ encodedMessage)).

(** [ensureLoggedIn(req, res, next)], server.js lines 140-143. *)
Definition ensureLoggedIn (next : Handler) : Handler :=
  fun e r =>
    if isAuthenticated r then next e r
    else (r, redirect "/index.html").

(** The handler of [/session-info], server.js lines 146-153.  Reading a
    field of an unset [req.user] throws. *)
Definition session_info_handler : Handler :=
  fun e r =>
    match user r with
    | Some u =>
        (r, json [("loggedIn", JBool true);
                  ("email", JString (email u));
                  ("name", JString (name u));
                  ("role", JString (role u))])
    | None => (r, error_response)
    end.

Definition session_info : Handler := ensureLoggedIn session_info_handler.

(** The handler of [/dashboard] in server.js (lines 156-159) and part_000:
    the file [public/dashboard.html] under the working directory. *)
Definition dashboard_handler : Handler :=
  fun e r => (r, sendFile ["public"; "dashboard.html"]).

Definition dashboard : Handler := ensureLoggedIn dashboard_handler.

(** [app.get("/logout", ...)], server.js lines 161-166. *)
Definition logout : Handler :=
  fun e r =>
    match req_logout e r with
    | None => (r, error_response)
    | Some r1 => (session_destroy e r1, redirect "/index.html")
    end.

(** Whether a request in environment [e] reaches its route authenticated. *)
Definition authenticated (e : Env) (st : gmap string Session) : bool :=
  match session_middleware e st with
  | Some r => isAuthenticated (passport_session r)
  | None => false
  end.

(** ** part_001: the dashboard rendered by the server (lines 150-177) *)

Module InlineDashboard.

(** The double-quote character of the HTML attributes. *)
Definition dq : string := String "034"%char EmptyString.

Definition page_head : string :=
  "
    <html>
      <head>
        <title>Dashboard</title>
        <style>
          body { font-family: Arial; padding: 20px; }
          .card { padding: 20px; border: 1px solid #ddd; border-radius: 10px; margin-top: 20px; }
          .stu { background: #e3f2fd; }
          .gen { background: #fff3e0; }
        </style>
      </head>
      <body>
        <h2>Welcome ".

Definition after_name : string :=
  "</h2>
        <p>Email: ".

Definition after_email : string :=
  "</p>
        <p>Role: <b>".

Definition after_role : string :=
  "</b></p>
        ".

Definition page_tail : string :=
  "
        <br>
        <a href=" +:+ dq +:+ "/logout" +:+ dq +:+ ">Logout</a>
      </body>
    </html>
  ".

Definition student_block : string :=
  "<div class=" +:+ dq +:+ "card stu" +:+ dq +:+ "><h3>Student Docs Section</h3></div>".

Definition generic_block : string :=
  "<div class=" +:+ dq +:+ "card gen" +:+ dq +:+ "><h3>Enrollment Section</h3></div>".

(** The conditional of lines 167-171. *)
Definition role_block (role : string) : string :=
  if JS.strict_eq role "student" then student_block else generic_block.

(** The template literal of lines 152-176 for [{ name, email, role }]. *)
Definition page (u : User) : string :=
  page_head +:+ name u +:+ after_name +:+ email u +:+ after_email
    +:+ role u +:+ after_role +:+ role_block (role u) +:+ page_tail.

(** The handler of [/dashboard]; destructuring an unset [req.user]
    throws. *)
Definition dashboard_handler : Handler :=
  fun e r =>
    match user r with
    | Some u => (r, send (page u))
    | None => (r, error_response)
    end.

Definition dashboard : Handler := ensureLoggedIn dashboard_handler.

End InlineDashboard.

(** ** Notions used to state the properties *)

(** An email the policy admits: it is some text followed by the
    institutional suffix, or it is the allow-listed address. *)
Definition permitted (E : string) : Prop :=
  (exists p, E = p +:+ institutional_suffix) \/ E = allow_listed.

(** A handler that answers an authenticated request without changing the
    request or the store. *)
Definition read_only (h : Handler) : Prop :=
  forall e r, isAuthenticated r = true -> fst (h e r) = r.

(** The store as the session middleware leaves it for the routes: the
    given one, less the record of the request's cookie when the read found
    it expired. *)
Definition loaded_store (e : Env) (st : gmap string Session)
  : gmap string Session :=
  match cookieId e with
  | Some sid => store_after_get e st sid
  | None => st
  end.

(** The guarded routes of the three revisions. *)
Definition guarded_routes : list Handler :=
  [session_info; dashboard; InlineDashboard.dashboard].

(** The flash messages waiting in the session of the request. *)
Definition pending_messages (e : Env) (st : gmap string Session) : list string :=
  match session_middleware e st with
  | Some r =>
      match session r with
      | Some s => default [] (flash s)
      | None => []
      end
  | None => []
  end.


(** A session as [req.logIn] or a later touch leaves it at time [t]. *)
Definition stamped (t : Z) (s : Session) : Prop :=
  cookie s = {| expires := t + maxAge; originalMaxAge := maxAge |}.

(** The store has no record for [sid] that is still valid at time [t]. *)
Definition no_live_record (t : Z) (st : gmap string Session) (sid : string)
  : Prop :=
  forall s, st !! sid = Some s -> expires (cookie s) <= t.

(** ** Sample requests, used to instantiate the theorems below *)

Module Scenario.

Definition day : Z := 24 * 60 * 60 * 1000.

Definition ids (n : nat) : string :=
  match n with O => "sid-a" | S O => "sid-b" | _ => "sid-c" end.

(** A request in production, over a connection seen as secure. *)
Definition request (t : Z) (up : bool) (c : option string) : Env :=
  {| now := t; store_up := up; uid := ids; cookieId := c;
     NODE_ENV := Some "production"; secure_connection := true |}.

Definition student : Profile :=
  {| emails := Some ["a@stu.pathfinder-mm.org"]; displayName := "A Student" |}.

Definition outsider : Profile :=
  {| emails := Some ["random@gmail.com"]; displayName := "R Andom" |}.

Definition no_email : Profile :=
  {| emails := None; displayName := "No Email" |}.

Definition student_user : User :=
  {| email := "a@stu.pathfinder-mm.org"; name := "A Student"; role := "student" |}.

Definition general_user : User :=
  {| email := "g@example.org"; name := "G Eneral"; role := "general" |}.

(** A store holding one session, created at time 0 for [u]. *)
Definition one_session (u : User) : gmap string Session :=
  {[ "sid-0" := {| cookie := {| expires := maxAge; originalMaxAge := maxAge |};
                   passport_user := Some u; flash := None |} ]}.

End Scenario.

(** ** The route table and sequences of requests *)

(** The routes of server.js (and part_000) whose handlers are in the file:
    lines 117-127, 129-134, 146-153, 156-159 and 161-166. *)
Module ServerJs.

Inductive Route :=
| GET_auth_google_callback (x : Exchange)
| GET_auth_failure
| GET_session_info
| GET_dashboard
| GET_logout.

Definition app (rt : Route) : Handler :=
  match rt with
  | GET_auth_google_callback x => auth_google_callback verify x
  | GET_auth_failure => auth_failure
  | GET_session_info => session_info
  | GET_dashboard => dashboard
  | GET_logout => logout
  end.

End ServerJs.

(** The routes of part_001 (lines 124-133, 135-140, 150-177, 179-184): no
    session-info endpoint, the dashboard rendered by the server and the
    verify callback with two if-statements. *)
Module Part001.

Inductive Route :=
| GET_auth_google_callback (x : Exchange)
| GET_auth_failure
| GET_dashboard
| GET_logout.

Definition app (rt : Route) : Handler :=
  match rt with
  | GET_auth_google_callback x => auth_google_callback TwoIf.verify x
  | GET_auth_failure => auth_failure
  | GET_dashboard => InlineDashboard.dashboard
  | GET_logout => logout
  end.

End Part001.

(** The store after a sequence of requests, each with its environment. *)
Definition run {A : Type} (table : A -> Handler) (trace : list (Env * A))
    (st : gmap string Session) : gmap string Session :=
  fold_left (fun st q => store_after (serve (table (snd q)) (fst q) st)) trace st.

(** The store after requests to one route by one client, at the given
    times, with a store that answers. *)
Definition visits (h : Handler) (ids : nat -> string) (sid : string)
    (times : list Z) (st : gmap string Session) : gmap string Session :=
  fold_left
    (fun st t =>
       store_after (serve h {| now := t; store_up := true; uid := ids;
                               cookieId := Some sid; NODE_ENV := None;
                               secure_connection := false |} st))
    times st.

(** Each time of the list falls inside the [maxAge] window opened by the
    one before it, starting from [t0]. *)
Fixpoint within_window (t0 : Z) (times : list Z) : Prop :=
  match times with
  | [] => True
  | t :: rest => (t0 <= t < t0 + maxAge) /\ within_window t rest
  end.

(** A user the policy admits, as the verify callback builds it. *)
Definition granted (u : User) : Prop :=
  role u = "student" /\ permitted (email u).

(** Every user found in the store is a granted one. *)
Definition only_granted (st : gmap string Session) : Prop :=
  forall sid s u, st !! sid = Some s -> passport_user s = Some u -> granted u.

(** The request carries a store and a session with granted users only. *)
Definition req_granted (r : Req) : Prop :=
  only_granted (sessionStore r)
  /\ (forall s u, session r = Some s -> passport_user s = Some u -> granted u).

(** The handler keeps the request within granted users. *)
Definition keeps_granted (h : Handler) : Prop :=
  forall e r, req_granted r -> req_granted (fst (h e r)).

(** ** Characters of a URL query value *)

Fixpoint string_forallb (P : ascii -> bool) (s : string) : bool :=
  match s with
  | EmptyString => true
  | String c rest => P c && string_forallb P rest
  end.

(** A character that cannot end or split a query value: an unreserved one
    or the percent sign of an escape. *)
Definition query_safe (c : ascii) : bool :=
  JS.uri_unreserved c || Ascii.eqb c "%".

(** The characters that end or split a query value, and those that open
    markup: [& # = ? /], space, the double quote, [<] and [>]. *)
Definition query_delimiter (c : ascii) : bool :=
  existsb (Ascii.eqb c) ["&"; "#"; "="; "?"; "/"; " "; "034"; "<"; ">"]%char.

(** * Properties *)

(** ** Strings *)

Lemma string_length_app (p t : string) :
  String.length (p +:+ t) = (String.length p + String.length t)%nat.
Proof. induction p as [|c p IH]; simpl; [done | by rewrite IH]. Qed.

Lemma substring_whole (t : string) : substring 0 (String.length t) t = t.
Proof. induction t as [|c t IH]; simpl; [done | by rewrite IH]. Qed.

Lemma substring_skip_prefix (p t : string) :
  substring (String.length p) (String.length t) (p +:+ t) = t.
Proof. induction p as [|c p IH]; simpl; [apply substring_whole | exact IH]. Qed.

Lemma substring_cut (s : string) : forall n m : nat,
  (n + m)%nat = String.length s -> s = substring 0 n s +:+ substring n m s.
Proof.
  induction s as [|c s IH]; intros n m H; simpl in H.
  - destruct n, m; try discriminate. reflexivity.
  - destruct n as [|n]; simpl.
    + destruct m as [|m]; [discriminate|]. injection H as H.
      simpl. rewrite H. by rewrite substring_whole.
    + change (String c s = String c (substring 0 n s +:+ substring n m s)).
      f_equal. apply (IH n m). simpl in H. lia.
Qed.

(** [endsWith] is an exact tail match: it holds exactly when the string is
    some prefix followed by the searched text. *)
Lemma endsWith_spec (s t : string) :
  JS.endsWith s t = true <-> exists p, s = p +:+ t.
Proof.
  unfold JS.endsWith. split.
  - destruct (Nat.ltb_spec (String.length s) (String.length t)) as [Hlt|Hge];
      [discriminate|].
    intros H. apply String.eqb_eq in H.
    exists (substring 0 (String.length s - String.length t) s).
    pose proof (substring_cut s (String.length s - String.length t)
                  (String.length t)) as Hc.
    rewrite H in Hc. apply Hc. lia.
  - intros [p ->]. rewrite string_length_app.
    destruct (Nat.ltb_spec (String.length p + String.length t) (String.length t));
      [lia|].
    replace (String.length p + String.length t - String.length t)%nat
      with (String.length p) by lia.
    rewrite substring_skip_prefix. apply String.eqb_refl.
Qed.

(** ** The authorization policy *)

Lemma authorize_true_iff (E : string) :
  JS.endsWith E institutional_suffix || JS.strict_eq E allow_listed = true
  <-> permitted E.
Proof.
  unfold permitted, JS.strict_eq.
  rewrite orb_true_iff, endsWith_spec, String.eqb_eq. reflexivity.
Qed.

Lemma authorize_cases (E : string) :
  (permitted E /\ authorize E = ("student", true))
  \/ (~ permitted E /\ authorize E = ("general", false)).
Proof.
  unfold authorize.
  destruct (JS.endsWith E institutional_suffix || JS.strict_eq E allow_listed)
    eqn:Hc.
  - left. split; [by apply authorize_true_iff | reflexivity].
  - right. split; [|reflexivity].
    intros Hp. apply authorize_true_iff in Hp. congruence.
Qed.

Lemma authorization_cases_verify (profile : Profile) (E : string) :
  first_email profile = Some E ->
  (permitted E
   /\ verify profile
      = done_user {| email := E; name := displayName profile; role := "student" |})
  \/ (~ permitted E /\ verify profile = done_fail rejection_message).
Proof.
  intros H. unfold verify. rewrite H.
  destruct (authorize_cases E) as [[Hp Ha]|[Hn Ha]]; rewrite Ha; auto.
Qed.

(** C1: the policy applied at login marks an email authorized, with role
    "student", exactly when it ends with "@stu.pathfinder-mm.org" or is
    exactly "avagarimike11@gmail.com"; any other email is rejected by the
    verify callback.  The two literal cases and the case-sensitivity and
    tail-match cases are evaluated. *)
Theorem authorization_policy (E : string) :
  (authorize E = ("student", true) <-> permitted E)
  /\ (snd (authorize E) = true <-> permitted E)
  /\ (forall profile, first_email profile = Some E ->
        (permitted E ->
           verify profile
           = done_user {| email := E; name := displayName profile;
                          role := "student" |})
        /\ (~ permitted E -> verify profile = done_fail rejection_message))
  /\ authorize "a@stu.pathfinder-mm.org" = ("student", true)
  /\ snd (authorize "random@gmail.com") = false
  /\ snd (authorize "Avagarimike11@gmail.com") = false
  /\ snd (authorize "a@stu.pathfinder-mm.org.example.com") = false.
Proof.
  repeat split; try reflexivity.
  - intros H. destruct (authorize_cases E) as [[Hp _]|[_ Hn]]; [done | congruence].
  - intros Hp. destruct (authorize_cases E) as [[_ Ha]|[Hn _]]; [done | contradiction].
  - intros H. destruct (authorize_cases E) as [[Hp _]|[_ Hn]]; [done |].
    rewrite Hn in H. discriminate.
  - intros Hp. destruct (authorize_cases E) as [[_ Ha]|[Hn _]];
      [by rewrite Ha | contradiction].
  - intros Hp. unfold verify. rewrite H.
    destruct (authorize_cases E) as [[_ Ha]|[Hn _]]; [|contradiction].
    rewrite Ha. reflexivity.
  - intros Hn. unfold verify. rewrite H.
    destruct (authorize_cases E) as [[Hp _]|[_ Ha]]; [contradiction|].
    rewrite Ha. reflexivity.
Qed.

Lemma authorization_policy_witness :
  first_email Scenario.student = Some "a@stu.pathfinder-mm.org"
  /\ permitted "a@stu.pathfinder-mm.org"
  /\ verify Scenario.student = done_user Scenario.student_user.
Proof.
  assert (Hp : permitted "a@stu.pathfinder-mm.org").
  { left. exists "a". reflexivity. }
  split; [reflexivity|]. split; [exact Hp|].
  destruct (authorization_policy "a@stu.pathfinder-mm.org")
    as (_ & _ & Hv & _).
  exact (proj1 (Hv Scenario.student eq_refl) Hp).
Defined.

(** C10: the revision with two separate if-statements computes the same
    (role, isAuthorized) pair as the revisions with the combined condition,
    and its verify callback ends in the same call of [done], with the same
    rejection message, for every profile. *)
Theorem two_if_equivalent :
  (forall E : string, TwoIf.authorize E = authorize E)
  /\ (forall profile : Profile, TwoIf.verify profile = verify profile).
Proof.
  assert (Ha : forall E : string, TwoIf.authorize E = authorize E).
  { intros E. unfold TwoIf.authorize, authorize.
    destruct (JS.endsWith E institutional_suffix),
      (JS.strict_eq E allow_listed); reflexivity. }
  split; [exact Ha|].
  intros profile. unfold TwoIf.verify, verify.
  destruct (first_email profile) as [E|]; [|reflexivity].
  rewrite Ha. reflexivity.
Qed.

(** ** The session middleware *)

Lemma middleware_answers (e : Env) (st : gmap string Session) :
  store_up e = true -> is_Some (session_middleware e st).
Proof.
  intros Hup. unfold session_middleware. rewrite Hup.
  destruct (cookieId e) as [sid|]; [|by eexists].
  destruct (store_get e st sid); by eexists.
Qed.

Lemma middleware_reached (e : Env) (st : gmap string Session) :
  store_up e = true \/ cookieId e = None -> is_Some (session_middleware e st).
Proof.
  intros [Hup|Hc]; [by apply middleware_answers|].
  unfold session_middleware. rewrite Hc. by eexists.
Qed.

Lemma middleware_outage (e : Env) (st : gmap string Session) (sid : string) :
  cookieId e = Some sid -> store_up e = false -> session_middleware e st = None.
Proof. intros Hc Hup. unfold session_middleware. by rewrite Hc, Hup. Qed.

Lemma store_get_live (e : Env) (st : gmap string Session) (sid : string)
    (s : Session) :
  st !! sid = Some s -> now e < expires (cookie s) -> store_get e st sid = Some s.
Proof.
  intros Hs Ht. unfold store_get. rewrite Hs.
  destruct (Z.leb_spec (expires (cookie s)) (now e)); [lia | reflexivity].
Qed.

Lemma store_get_Some (e : Env) (st : gmap string Session) (sid : string)
    (s : Session) :
  store_get e st sid = Some s -> st !! sid = Some s /\ now e < expires (cookie s).
Proof.
  unfold store_get. destruct (st !! sid) as [s0|]; [|discriminate].
  destruct (Z.leb_spec (expires (cookie s0)) (now e)); [discriminate|].
  intros [= ->]. split; [reflexivity | lia].
Qed.

Lemma middleware_live (e : Env) (st : gmap string Session) (sid : string)
    (s : Session) :
  cookieId e = Some sid -> store_up e = true ->
  st !! sid = Some s -> now e < expires (cookie s) ->
  session_middleware e st
  = Some {| sessionStore := st; fresh := O; sessionID := sid;
            session := Some s; originalId := sid; originalHash := hash s;
            user := None |}.
Proof.
  intros Hc Hup Hs Ht. unfold session_middleware.
  rewrite Hc, Hup, (store_get_live e st sid s Hs Ht). reflexivity.
Qed.

(** A request is authenticated exactly when its cookie names a stored,
    unexpired session that carries a user and the store answers. *)
Lemma authenticated_iff (e : Env) (st : gmap string Session) :
  authenticated e st = true
  <-> exists sid s u, cookieId e = Some sid /\ store_up e = true
        /\ st !! sid = Some s /\ now e < expires (cookie s)
        /\ passport_user s = Some u.
Proof.
  unfold authenticated, session_middleware. split.
  - destruct (cookieId e) as [sid|] eqn:Hc; [|discriminate].
    destruct (store_up e) eqn:Hup; [|discriminate].
    destruct (store_get e st sid) as [s|] eqn:Hg; [|discriminate].
    apply store_get_Some in Hg as [Hs Ht].
    unfold passport_session, isAuthenticated. simpl.
    destruct (passport_user s) as [u|] eqn:Hu; [|discriminate].
    intros _. by exists sid, s, u.
  - intros (sid & s & u & Hc & Hup & Hs & Ht & Hu).
    rewrite Hc, Hup, (store_get_live e st sid s Hs Ht).
    unfold passport_session, isAuthenticated. simpl. by rewrite Hu.
Qed.

(** ** The route guard *)

(** C2: on a guarded route, a request that reaches the guard (the store
    answers, or no cookie was sent) and whose session is not authenticated
    (no cookie, no record, or an expired record) is answered by the redirect
    to "/index.html" and the whole outcome is that of a route that only
    redirects, whatever the handler is; an authenticated request gets the
    outcome of the handler itself. *)
Theorem guard_contract (h : Handler) (e : Env) (st : gmap string Session) :
  store_up e = true \/ cookieId e = None ->
  (authenticated e st = false ->
     serve (ensureLoggedIn h) e st
     = serve (fun _ r => (r, redirect "/index.html")) e st
     /\ response (serve (ensureLoggedIn h) e st) = redirect "/index.html")
  /\ (authenticated e st = true ->
        serve (ensureLoggedIn h) e st = serve h e st)
  /\ (cookieId e = None -> authenticated e st = false)
  /\ (forall sid, cookieId e = Some sid -> st !! sid = None ->
        authenticated e st = false)
  /\ (forall sid s, cookieId e = Some sid -> st !! sid = Some s ->
        expires (cookie s) <= now e -> authenticated e st = false).
Proof.
  intros Hreach.
  destruct (middleware_reached e st Hreach) as [r Hr].
  unfold authenticated, serve, ensureLoggedIn. rewrite Hr.
  split; [|split; [|split; [|split]]].
  - intros H. by rewrite H.
  - intros H. by rewrite H.
  - intros Hc. unfold session_middleware in Hr. rewrite Hc in Hr.
    by injection Hr as <-.
  - intros sid Hc Hs. unfold session_middleware, store_get in Hr.
    rewrite Hc, Hs in Hr. destruct (store_up e); [|discriminate].
    by injection Hr as <-.
  - intros sid s Hc Hs Ht. unfold session_middleware, store_get in Hr.
    rewrite Hc, Hs in Hr. destruct (store_up e); [|discriminate].
    destruct (Z.leb_spec (expires (cookie s)) (now e)); [|lia].
    by injection Hr as <-.
Qed.

Lemma guard_contract_witness :
  store_up (Scenario.request 0 true None) = true
  /\ authenticated (Scenario.request 0 true None) ∅ = false
  /\ response (serve session_info (Scenario.request 0 true None) ∅)
     = redirect "/index.html"
  /\ authenticated (Scenario.request Scenario.day true (Some "sid-0"))
       (Scenario.one_session Scenario.student_user) = true
  /\ serve session_info (Scenario.request Scenario.day true (Some "sid-0"))
       (Scenario.one_session Scenario.student_user)
     = serve session_info_handler
         (Scenario.request Scenario.day true (Some "sid-0"))
         (Scenario.one_session Scenario.student_user).
Proof.
  split; [reflexivity|]. split; [reflexivity|]. split.
  - exact (proj2 (proj1 (guard_contract session_info_handler
                           (Scenario.request 0 true None) ∅
                           (or_introl eq_refl)) eq_refl)).
  - split; [reflexivity|].
    exact (proj1 (proj2 (guard_contract session_info_handler
                           (Scenario.request Scenario.day true (Some "sid-0"))
                           (Scenario.one_session Scenario.student_user)
                           (or_introl eq_refl)))
             eq_refl).
Defined.

(** ** Rolling expiry *)

Lemma maxAge_is_ttl : maxAge = ttl * 1000.
Proof. reflexivity. Qed.

Lemma guarded_routes_read_only (route : Handler) :
  In route guarded_routes -> exists h, route = ensureLoggedIn h /\ read_only h.
Proof.
  intros [<-|[<-|[<-|[]]]].
  - exists session_info_handler. split; [reflexivity|].
    intros e r. unfold isAuthenticated, session_info_handler.
    by destruct (user r).
  - exists dashboard_handler. by split.
  - exists InlineDashboard.dashboard_handler. split; [reflexivity|].
    intros e r. unfold isAuthenticated, InlineDashboard.dashboard_handler.
    by destruct (user r).
Qed.

(** The store after an authenticated request to a read-only route: the
    record of the session has its cookie touched, nothing else changes. *)
Lemma serve_read_only_store (h : Handler) (e : Env) (st : gmap string Session)
    (sid : string) (s : Session) (u : User) :
  read_only h ->
  cookieId e = Some sid -> store_up e = true ->
  st !! sid = Some s -> now e < expires (cookie s) ->
  passport_user s = Some u ->
  store_after (serve (ensureLoggedIn h) e st)
  = alter (set_cookie_of (cookie (touch e s))) sid st.
Proof.
  intros Hro Hc Hup Hs Ht Hu.
  unfold serve. rewrite (middleware_live e st sid s Hc Hup Hs Ht).
  unfold passport_session, ensureLoggedIn. cbn [session]. rewrite Hu.
  set (r := set_user (Some u) _).
  assert (Hauth : isAuthenticated r = true) by reflexivity.
  rewrite Hauth. specialize (Hro e r Hauth).
  destruct (h e r) as [r' resp]. simpl in Hro. subst r'.
  unfold commit, isModified. cbn. rewrite Hup. cbn.
  rewrite !bool_decide_eq_true_2 by done. reflexivity.
Qed.

(** C3: an authenticated request to a guarded route moves the expiry of its
    session record to the time of the request plus the fourteen days of
    [maxAge]; for a record written for the last time at [t0], not after the
    request, the expiry never moves backwards, and the rest of the record is
    kept.  With [t0 = T] and the request at [T + 13 days] the stored expiry
    is [(T + 13 days) + 14 days]. *)
Theorem rolling_ttl (route : Handler) (e : Env) (st : gmap string Session)
    (sid : string) (s : Session) (u : User) (t0 : Z) :
  In route guarded_routes ->
  cookieId e = Some sid -> store_up e = true ->
  st !! sid = Some s -> passport_user s = Some u ->
  stamped t0 s -> t0 <= now e < t0 + maxAge ->
  exists s',
    store_after (serve route e st) !! sid = Some s'
    /\ expires (cookie s') = now e + 14 * 24 * 60 * 60 * 1000
    /\ expires (cookie s) <= expires (cookie s')
    /\ stamped (now e) s'
    /\ hash s' = hash s.
Proof.
  intros Hin Hc Hup Hs Hu Hst [Hlo Hhi].
  destruct (guarded_routes_read_only route Hin) as (h & -> & Hro).
  assert (Hlive : now e < expires (cookie s)) by (rewrite Hst; simpl; lia).
  rewrite (serve_read_only_store h e st sid s u Hro Hc Hup Hs Hlive Hu).
  exists (set_cookie_of (cookie (touch e s)) s).
  split; [by rewrite lookup_alter_eq, Hs|].
  unfold stamped in *. unfold touch. simpl. rewrite Hst. simpl.
  repeat split; try reflexivity; unfold maxAge; lia.
Qed.

Lemma rolling_ttl_witness :
  In session_info guarded_routes
  /\ Scenario.one_session Scenario.student_user !! "sid-0"
     = Some {| cookie := {| expires := maxAge; originalMaxAge := maxAge |};
               passport_user := Some Scenario.student_user; flash := None |}
  /\ 0 <= 13 * Scenario.day < 0 + maxAge
  /\ exists s',
       store_after (serve session_info
                      (Scenario.request (13 * Scenario.day) true (Some "sid-0"))
                      (Scenario.one_session Scenario.student_user)) !! "sid-0"
       = Some s'
       /\ expires (cookie s') = 13 * Scenario.day + 14 * 24 * 60 * 60 * 1000
       /\ maxAge <= expires (cookie s').
Proof.
  assert (Hin : In session_info guarded_routes) by (left; reflexivity).
  assert (Ht : 0 <= 13 * Scenario.day < 0 + maxAge) by (unfold Scenario.day, maxAge; lia).
  split; [exact Hin|]. split; [reflexivity|]. split; [exact Ht|].
  destruct (rolling_ttl session_info
              (Scenario.request (13 * Scenario.day) true (Some "sid-0"))
              (Scenario.one_session Scenario.student_user) "sid-0"
              {| cookie := {| expires := maxAge; originalMaxAge := maxAge |};
                 passport_user := Some Scenario.student_user; flash := None |}
              Scenario.student_user 0 Hin eq_refl eq_refl eq_refl eq_refl eq_refl Ht)
    as (s' & Hs' & He & Hle & _).
  exists s'. split; [exact Hs'|]. split; [exact He | exact Hle].
Defined.

(** ** Login *)

(** A successful login answers with the redirect to "/dashboard", hands the
    client the id of a new session, and leaves under that id a record with
    the user and a fresh fourteen-day expiry. *)
Lemma login_success (vf : Profile -> Done) (profile : Profile) (u : User)
    (e : Env) (st : gmap string Session) :
  vf profile = done_user u -> store_up e = true ->
  let res := serve (auth_google_callback vf (exchange_profile profile)) e st in
  response res = redirect "/dashboard"
  /\ exists sid,
       set_cookie res = (if cookie_withheld e then None else Some sid)
       /\ store_after res !! sid
          = Some {| cookie := new_cookie e; passport_user := Some u;
                    flash := None |}.
Proof.
  intros Hv Hup res. subst res.
  destruct (middleware_answers e st Hup) as [r Hr].
  unfold serve, auth_google_callback. rewrite Hr, Hv.
  unfold req_logIn. rewrite Hup.
  set (r0 := passport_session r).
  split; [reflexivity|].
  exists (uid e (fresh r0)).
  unfold commit, shouldSetCookie, isModified. cbn. rewrite Hup. cbn.
  change (hash (set_passport_user (Some u) (new_session e)))
    with (Some u, @None (list string)).
  assert (Hr0 : originalId r0 = originalId r /\ originalHash r0 = originalHash r
                /\ fresh r0 = fresh r).
  { unfold r0, passport_session. by destruct (session r). }
  destruct Hr0 as (Hid & Hh & Hf).
  assert (Horig :
    cookieId e ≠ Some (uid e (fresh r0))
    -> negb (bool_decide (originalId r0 = uid e (fresh r0)))
       || negb (bool_decide (originalHash r0 = (Some u, None))) = true).
  { intros Hne. rewrite Hid, Hh.
    unfold session_middleware in Hr.
    destruct (cookieId e) as [c|] eqn:Hc.
    - rewrite Hup in Hr. destruct (store_get e st c); injection Hr as <-; cbn.
      + rewrite bool_decide_eq_false_2; [done|]. intros ->. apply Hne.
        by rewrite Hf.
      + rewrite (bool_decide_eq_false_2 (_ = (Some u, None))) by done.
        apply orb_true_r.
    - injection Hr as <-. cbn.
      rewrite (bool_decide_eq_false_2 (_ = (Some u, None))) by done.
      apply orb_true_r. }
  destruct (decide (cookieId e = Some (uid e (fresh r0)))) as [Hc|Hc].
  - rewrite !(bool_decide_eq_true_2 _ Hc). split; [reflexivity|].
    destruct (negb _ || negb _).
    + by rewrite lookup_insert_eq.
    + by rewrite lookup_alter_eq, lookup_insert_eq.
  - rewrite !(bool_decide_eq_false_2 _ Hc).
    rewrite (Horig Hc).
    split; [reflexivity|]. by rewrite lookup_insert_eq.
Qed.

(** The record a login at time [now e] leaves is stamped with that time. *)
Lemma login_stamped (vf : Profile -> Done) (profile : Profile) (u : User)
    (e : Env) (st : gmap string Session) :
  vf profile = done_user u -> store_up e = true ->
  exists sid s,
    set_cookie (serve (auth_google_callback vf (exchange_profile profile)) e st)
    = (if cookie_withheld e then None else Some sid)
    /\ store_after (serve (auth_google_callback vf (exchange_profile profile)) e st)
       !! sid = Some s
    /\ passport_user s = Some u /\ stamped (now e) s.
Proof.
  intros Hv Hup.
  destruct (login_success vf profile u e st Hv Hup) as (_ & sid & Hset & Hrec).
  exists sid. eexists. split; [exact Hset|]. split; [exact Hrec|]. by split.
Qed.

(** ** The session-info endpoint *)

Lemma serve_authenticated (h : Handler) (e : Env) (st : gmap string Session)
    (sid : string) (s : Session) (u : User) :
  cookieId e = Some sid -> store_up e = true ->
  st !! sid = Some s -> now e < expires (cookie s) ->
  passport_user s = Some u ->
  response (serve (ensureLoggedIn h) e st)
  = snd (h e {| sessionStore := st; fresh := O; sessionID := sid;
                session := Some s; originalId := sid; originalHash := hash s;
                user := Some u |}).
Proof.
  intros Hc Hup Hs Ht Hu.
  unfold serve. rewrite (middleware_live e st sid s Hc Hup Hs Ht).
  unfold passport_session, ensureLoggedIn. cbn [session]. rewrite Hu.
  unfold set_user, isAuthenticated. cbn.
  by destruct (h e _).
Qed.

(** C4: for an authenticated session, GET /session-info answers with
    exactly the object [{loggedIn: true, email, name, role}] of the user the
    session carries; for a session opened by a login with a profile whose
    first email is [E], these are [E], the profile's display name and
    "student". *)
Theorem session_info_identity (e : Env) (st : gmap string Session)
    (sid : string) (s : Session) (u : User) :
  cookieId e = Some sid -> store_up e = true ->
  st !! sid = Some s -> now e < expires (cookie s) ->
  passport_user s = Some u ->
  response (serve session_info e st)
  = json [("loggedIn", JBool true); ("email", JString (email u));
          ("name", JString (name u)); ("role", JString (role u))]
  /\ (forall (e1 : Env) (st0 : gmap string Session) (profile : Profile)
        (E : string),
        first_email profile = Some E -> permitted E ->
        store_up e1 = true ->
        let login :=
          serve (auth_google_callback verify (exchange_profile profile)) e1 st0 in
        cookieId e = set_cookie login -> now e < now e1 + maxAge ->
        response (serve session_info e (store_after login))
        = json [("loggedIn", JBool true); ("email", JString E);
                ("name", JString (displayName profile));
                ("role", JString "student")]).
Proof.
  intros Hc Hup Hs Ht Hu. split.
  - unfold session_info.
    by rewrite (serve_authenticated _ e st sid s u Hc Hup Hs Ht Hu).
  - intros e1 st0 profile E HE Hp Hup1 login Hc1 Ht1.
    destruct (authorization_cases_verify profile E HE) as [[_ Hv]|[Hn _]];
      [|contradiction].
    destruct (login_success verify profile _ e1 st0 Hv Hup1)
      as (_ & sid1 & Hset & Hrec).
    fold login in Hset, Hrec. rewrite Hset in Hc1.
    destruct (cookie_withheld e1); [congruence|].
    unfold session_info.
    by rewrite (serve_authenticated _ e (store_after login) sid1 _ _
                  Hc1 Hup Hrec Ht1 eq_refl).
Qed.

Lemma session_info_identity_witness :
  let login :=
    serve (auth_google_callback verify (exchange_profile Scenario.student))
      (Scenario.request 0 true None) ∅ in
  set_cookie login = Some "sid-b"
  /\ response (serve session_info
                 (Scenario.request Scenario.day true (Some "sid-b"))
                 (store_after login))
     = json [("loggedIn", JBool true);
             ("email", JString "a@stu.pathfinder-mm.org");
             ("name", JString "A Student"); ("role", JString "student")].
Proof.
  intros login. split; [reflexivity|].
  assert (Hp : permitted "a@stu.pathfinder-mm.org").
  { left. exists "a". reflexivity. }
  assert (Ht : Scenario.day < 0 + maxAge) by (unfold Scenario.day, maxAge; lia).
  exact (proj2 (session_info_identity
                  (Scenario.request Scenario.day true (Some "sid-b"))
                  (store_after login) "sid-b"
                  {| cookie := new_cookie (Scenario.request 0 true None);
                     passport_user := Some Scenario.student_user;
                     flash := None |}
                  Scenario.student_user eq_refl eq_refl eq_refl Ht eq_refl)
           (Scenario.request 0 true None) ∅ Scenario.student
           "a@stu.pathfinder-mm.org" eq_refl Hp eq_refl eq_refl Ht).
Defined.

(** ** Rejected logins *)

Lemma store_after_get_lookup (e : Env) (st : gmap string Session)
    (sid k : string) (s : Session) :
  store_after_get e st sid !! k = Some s -> st !! k = Some s.
Proof.
  unfold store_after_get. destruct (st !! sid) as [s0|]; [|done].
  destruct (expires (cookie s0) <=? now e); [|done].
  destruct (decide (sid = k)) as [->|Hne].
  - by rewrite lookup_delete_eq.
  - by rewrite lookup_delete_ne.
Qed.

Lemma store_after_get_ne (e : Env) (st : gmap string Session) (sid k : string) :
  sid <> k -> store_after_get e st sid !! k = st !! k.
Proof.
  intros Hne. unfold store_after_get. destruct (st !! sid) as [s0|]; [|done].
  destruct (expires (cookie s0) <=? now e); [|done].
  by rewrite lookup_delete_ne.
Qed.

Lemma store_after_get_live (e : Env) (st : gmap string Session) (sid : string)
    (s : Session) :
  st !! sid = Some s -> now e < expires (cookie s) ->
  store_after_get e st sid = st.
Proof.
  intros Hs Ht. unfold store_after_get. rewrite Hs.
  destruct (Z.leb_spec (expires (cookie s)) (now e)); [lia | reflexivity].
Qed.

Lemma loaded_store_lookup (e : Env) (st : gmap string Session) (k : string)
    (s : Session) :
  loaded_store e st !! k = Some s -> st !! k = Some s.
Proof.
  unfold loaded_store. destruct (cookieId e); [|done].
  apply store_after_get_lookup.
Qed.

Lemma loaded_store_ne (e : Env) (st : gmap string Session) (k : string) :
  cookieId e <> Some k -> loaded_store e st !! k = st !! k.
Proof.
  intros Hne. unfold loaded_store. destruct (cookieId e) as [sid|]; [|done].
  apply store_after_get_ne. congruence.
Qed.

Lemma loaded_store_live (e : Env) (st : gmap string Session) (sid : string)
    (s : Session) :
  cookieId e = Some sid -> st !! sid = Some s -> now e < expires (cookie s) ->
  loaded_store e st = st.
Proof.
  intros Hc Hs Ht. unfold loaded_store. rewrite Hc.
  by apply (store_after_get_live e st sid s).
Qed.

(** What the session middleware hands to the routes: a session whose
    original id and hash are its own, over the loaded store; the session
    is either the stored, unexpired one of the cookie or a new one. *)
Lemma middleware_shape (e : Env) (st : gmap string Session) (r : Req) :
  session_middleware e st = Some r ->
  exists s,
    session r = Some s /\ originalId r = sessionID r
    /\ originalHash r = hash s /\ sessionStore r = loaded_store e st
    /\ user r = None
    /\ ((cookieId e = Some (sessionID r) /\ st !! sessionID r = Some s
         /\ now e < expires (cookie s))
        \/ s = new_session e).
Proof.
  unfold session_middleware, loaded_store. intros Hr.
  destruct (cookieId e) as [c|] eqn:Hc.
  - destruct (store_up e); [|discriminate].
    destruct (store_get e st c) as [s|] eqn:Hg; injection Hr as <-.
    + apply store_get_Some in Hg as [Hs Ht].
      exists s. cbn. rewrite (store_after_get_live e st c s Hs Ht).
      repeat split; auto.
    + exists (new_session e). cbn. repeat split; auto.
  - injection Hr as <-. exists (new_session e). cbn. repeat split; auto.
Qed.

Lemma flash_grows (l : list string) (msg : string) (f : option (list string)) :
  default [] f = l -> f ≠ Some (l ++ [msg])%list.
Proof.
  intros Hl Hf. subst f. simpl in Hl.
  apply (f_equal (@List.length string)) in Hl.
  rewrite length_app in Hl. simpl in Hl. lia.
Qed.

(** The outcome of a request whose handler flashes [msg] and redirects to
    the failure route: the session of the request is saved with the message
    appended and with the user it had, if any; its id goes back to the
    client unless the cookie is withheld. *)
Lemma flash_redirect_outcome (h : Handler) (msg : string) (e : Env)
    (st : gmap string Session) :
  (forall r, h e r = (flash_push msg r, redirect "/auth/failure")) ->
  store_up e = true ->
  response (serve h e st) = redirect "/auth/failure"
  /\ exists sid s,
       set_cookie (serve h e st)
       = (if cookie_withheld e then None else Some sid)
       /\ store_after (serve h e st) = <[sid := s]> (loaded_store e st)
       /\ (authenticated e st = false -> passport_user s = None)
       /\ (passport_user s = None
           \/ exists s0, st !! sid = Some s0 /\ passport_user s0 = passport_user s)
       /\ flash s = Some (pending_messages e st ++ [msg])%list
       /\ expires (cookie s) = now e + originalMaxAge (cookie s).
Proof.
  intros Hh Hup.
  destruct (middleware_answers e st Hup) as [r Hr].
  destruct (middleware_shape e st r Hr) as (s & Hs & Hid & Hhash & Hst & Hu & Hor).
  unfold authenticated, pending_messages, serve.
  rewrite Hr. rewrite Hs.
  unfold passport_session. rewrite Hs.
  unfold isAuthenticated. cbn [user set_user].
  rewrite Hh. unfold flash_push. cbn [session set_user]. rewrite Hs.
  split; [reflexivity|].
  set (s1 := set_flash _ s).
  assert (Hmod : isModified (set_session (Some s1) (set_user (passport_user s) r)) s1
                 = true).
  { unfold isModified. cbn. rewrite Hid, Hhash.
    rewrite bool_decide_eq_true_2 by done.
    rewrite bool_decide_eq_false_2; [done|].
    unfold hash, s1. cbn. intros [= Hf].
    by apply (flash_grows (default [] (flash s)) msg (flash s)). }
  exists (sessionID r), (touch e s1). cbn.
  unfold shouldSetCookie, commit. cbn [session set_session set_user].
  rewrite Hmod, Hup. cbn. rewrite Hst.
  split; [|split; [reflexivity|split; [|split; [|by split]]]].
  - destruct (cookie_withheld e); [reflexivity|].
    by destruct (bool_decide (cookieId e = Some (sessionID r))).
  - by destruct (passport_user s).
  - destruct Hor as [(_ & Hlook & _) | ->]; [|by left].
    right. by exists s.
Qed.

Lemma pending_messages_live (e : Env) (st : gmap string Session) (sid : string)
    (s : Session) :
  cookieId e = Some sid -> store_up e = true ->
  st !! sid = Some s -> now e < expires (cookie s) ->
  pending_messages e st = default [] (flash s).
Proof.
  intros Hc Hup Hs Ht. unfold pending_messages.
  by rewrite (middleware_live e st sid s Hc Hup Hs Ht).
Qed.

(** The failure route reports the oldest pending flash message, or the
    generic one when there is none, URL-encoded in [authError]. *)
Lemma auth_failure_response (e : Env) (st : gmap string Session) :
  store_up e = true ->
  response (serve auth_failure e st)
  = redirect ("/index.html?authError="
              +:+ JS.encodeURIComponent
                    match pending_messages e st with
                    | m :: _ => m
                    | [] => "Login failed."
                    end).
Proof.
  intros Hup.
  destruct (middleware_answers e st Hup) as [r Hr].
  destruct (middleware_shape e st r Hr) as (s & Hs & _).
  unfold serve, pending_messages. rewrite Hr, Hs.
  unfold passport_session, auth_failure, flash_read. rewrite Hs.
  cbn [session set_user]. rewrite Hs. reflexivity.
Qed.

Lemma not_authenticated_without_user (e : Env) (st : gmap string Session)
    (sid : string) :
  cookieId e = Some sid ->
  (forall s, st !! sid = Some s -> passport_user s = None) ->
  authenticated e st = false.
Proof.
  intros Hc Hnone. apply not_true_is_false. intros Ha.
  apply authenticated_iff in Ha as (sid' & s & u & Hc' & _ & Hs & _ & Hu).
  rewrite Hc in Hc'. injection Hc' as <-.
  rewrite (Hnone s Hs) in Hu. discriminate.
Qed.

Lemma guard_redirects (h : Handler) (e : Env) (st : gmap string Session) :
  store_up e = true -> authenticated e st = false ->
  response (serve (ensureLoggedIn h) e st) = redirect "/index.html".
Proof.
  intros Hup Ha.
  destruct (middleware_answers e st Hup) as [r Hr].
  unfold authenticated in Ha. unfold serve, ensureLoggedIn.
  rewrite Hr in *. by rewrite Ha.
Qed.

Lemma rejection_message_encoded :
  JS.encodeURIComponent rejection_message
  = "You%20are%20not%20a%20verified%20student%20of%20Pathfinder%20Institute%20Myanmar.".
Proof. reflexivity. Qed.

Lemma verify_fail_message (profile : Profile) (msg : string) :
  verify profile = done_fail msg -> msg = rejection_message.
Proof.
  intros Hv. destruct (first_email profile) as [E|] eqn:HE.
  - destruct (authorization_cases_verify profile E HE) as [[_ Hu]|[_ Hf]];
      rewrite Hv in *; congruence.
  - unfold verify in Hv. rewrite HE in Hv. discriminate.
Qed.




(** ** Logout *)

Lemma no_live_record_delete (t : Z) (st : gmap string Session) (sid k : string) :
  no_live_record t st sid -> no_live_record t (delete k st) sid.
Proof.
  intros H s Hs. destruct (decide (k = sid)) as [->|Hne].
  - by rewrite lookup_delete_eq in Hs.
  - rewrite lookup_delete_ne in Hs by done. by apply H.
Qed.

Lemma no_live_record_later (t t' : Z) (st : gmap string Session) (sid : string) :
  t <= t' -> no_live_record t st sid -> no_live_record t' st sid.
Proof. intros Hle H s Hs. specialize (H s Hs). lia. Qed.

Lemma no_live_record_unauthenticated (e : Env) (st : gmap string Session)
    (sid : string) :
  cookieId e = Some sid -> no_live_record (now e) st sid ->
  authenticated e st = false.
Proof.
  intros Hc Hdead. apply not_true_is_false. intros Ha.
  apply authenticated_iff in Ha as (sid' & s & u & Hc' & _ & Hs & Ht & _).
  rewrite Hc in Hc'. injection Hc' as <-.
  specialize (Hdead s Hs). lia.
Qed.

(** One request to /logout with a store that answers: the redirect to
    "/index.html", no cookie set, and a store in which the id of the
    request's cookie has no valid record. *)
Lemma logout_outcome (e : Env) (st : gmap string Session) (sid : string) :
  cookieId e = Some sid -> store_up e = true ->
  response (serve logout e st) = redirect "/index.html"
  /\ set_cookie (serve logout e st) = None
  /\ no_live_record (now e) (store_after (serve logout e st)) sid.
Proof.
  intros Hc Hup.
  destruct (middleware_answers e st Hup) as [r Hr].
  destruct (middleware_shape e st r Hr) as (s & Hs & _ & _ & Hst & _ & _).
  assert (Hsid : sessionID r = sid \/ no_live_record (now e) st sid).
  { unfold session_middleware in Hr. rewrite Hc, Hup in Hr.
    destruct (store_get e st sid) as [s0|] eqn:Hg.
    - left. by injection Hr as <-.
    - right. intros s0 Hs0. unfold store_get in Hg. rewrite Hs0 in Hg.
      destruct (Z.leb_spec (expires (cookie s0)) (now e)); [lia | discriminate]. }
  unfold serve, logout, req_logout. rewrite Hr.
  unfold passport_session. rewrite Hs. cbn [session set_user]. rewrite Hs, Hup.
  unfold session_destroy. rewrite Hup. cbn. rewrite Hst.
  split; [reflexivity|]. split; [reflexivity|].
  apply no_live_record_delete. rewrite delete_insert_eq.
  destruct Hsid as [->|Hdead].
  - intros s0 Hs0. by rewrite lookup_delete_eq in Hs0.
  - apply no_live_record_delete. intros s0 Hs0.
    apply (Hdead s0). by apply (loaded_store_lookup e).
Qed.

(** C6: with a store that answers, a request to /logout ends in the redirect
    to "/index.html" and leaves no valid record under the id of the request's
    cookie, so a later request with that id is not authenticated; a second
    /logout with the same, now absent, id ends in the same redirect (not in
    an error) and the id stays unauthenticated. *)
Theorem logout_idempotent (e1 e2 e3 : Env) (st : gmap string Session)
    (sid : string) :
  cookieId e1 = Some sid -> cookieId e2 = Some sid -> cookieId e3 = Some sid ->
  store_up e1 = true -> store_up e2 = true ->
  now e1 <= now e2 -> now e2 <= now e3 ->
  let first := serve logout e1 st in
  let second := serve logout e2 (store_after first) in
  response first = redirect "/index.html"
  /\ authenticated e2 (store_after first) = false
  /\ response second = redirect "/index.html"
  /\ response second <> error_response
  /\ authenticated e3 (store_after second) = false.
Proof.
  intros Hc1 Hc2 Hc3 Hup1 Hup2 Ht12 Ht23 first second.
  destruct (logout_outcome e1 st sid Hc1 Hup1) as (Hr1 & _ & Hd1).
  destruct (logout_outcome e2 (store_after first) sid Hc2 Hup2) as (Hr2 & _ & Hd2).
  fold first in Hr1, Hd1. fold second in Hr2, Hd2.
  split; [exact Hr1|]. split.
  - apply (no_live_record_unauthenticated e2 _ sid Hc2).
    by apply (no_live_record_later (now e1)).
  - split; [exact Hr2|]. split; [by rewrite Hr2|].
    apply (no_live_record_unauthenticated e3 _ sid Hc3).
    by apply (no_live_record_later (now e2)).
Qed.

Lemma logout_idempotent_witness :
  let first :=
    serve logout (Scenario.request Scenario.day true (Some "sid-0"))
      (Scenario.one_session Scenario.student_user) in
  let second :=
    serve logout (Scenario.request (2 * Scenario.day) true (Some "sid-0"))
      (store_after first) in
  authenticated (Scenario.request Scenario.day true (Some "sid-0"))
    (Scenario.one_session Scenario.student_user) = true
  /\ Scenario.day <= 2 * Scenario.day
  /\ response first = redirect "/index.html"
  /\ authenticated (Scenario.request (2 * Scenario.day) true (Some "sid-0"))
       (store_after first) = false
  /\ response second = redirect "/index.html"
  /\ response second <> error_response
  /\ authenticated (Scenario.request (2 * Scenario.day) true (Some "sid-0"))
       (store_after second) = false.
Proof.
  intros first second.
  assert (Ht : Scenario.day <= 2 * Scenario.day) by (unfold Scenario.day; lia).
  split; [reflexivity|]. split; [exact Ht|].
  exact (logout_idempotent
           (Scenario.request Scenario.day true (Some "sid-0"))
           (Scenario.request (2 * Scenario.day) true (Some "sid-0"))
           (Scenario.request (2 * Scenario.day) true (Some "sid-0"))
           (Scenario.one_session Scenario.student_user) "sid-0"
           eq_refl eq_refl eq_refl eq_refl eq_refl Ht (Z.le_refl _)).
Defined.

(** ** Store outage *)

(** C7: when the store calls back with an error while the session of a
    request to a guarded route is looked up, the request ends in the error
    response, which is not the redirect to "/index.html" that a request with
    an absent session gets, and the store is left as it was. *)
Theorem store_outage_distinguished (h : Handler) (e : Env)
    (st : gmap string Session) (sid : string) :
  cookieId e = Some sid -> store_up e = false ->
  response (serve (ensureLoggedIn h) e st) = error_response
  /\ response (serve (ensureLoggedIn h) e st) <> redirect "/index.html"
  /\ store_after (serve (ensureLoggedIn h) e st) = st
  /\ (forall e', cookieId e' = Some sid -> store_up e' = true ->
        st !! sid = None ->
        response (serve (ensureLoggedIn h) e' st) = redirect "/index.html"
        /\ response (serve (ensureLoggedIn h) e' st)
           <> response (serve (ensureLoggedIn h) e st)).
Proof.
  intros Hc Hdown.
  assert (Hout : serve (ensureLoggedIn h) e st
                 = {| response := error_response; store_after := st;
                      set_cookie := None |}).
  { unfold serve. by rewrite (middleware_outage e st sid Hc Hdown). }
  rewrite Hout. cbn.
  split; [reflexivity|]. split; [discriminate|]. split; [reflexivity|].
  intros e' Hc' Hup' Habs.
  assert (Hr : response (serve (ensureLoggedIn h) e' st) = redirect "/index.html").
  { apply guard_redirects; [assumption|].
    apply (not_authenticated_without_user e' st sid Hc').
    intros s Hs. congruence. }
  split; [exact Hr|]. by rewrite Hr.
Qed.

Lemma store_outage_distinguished_witness :
  let down := Scenario.request Scenario.day false (Some "sid-0") in
  let up := Scenario.request Scenario.day true (Some "sid-0") in
  response (serve session_info down (Scenario.one_session Scenario.student_user))
  = error_response
  /\ store_after (serve session_info down
                    (Scenario.one_session Scenario.student_user))
     = Scenario.one_session Scenario.student_user
  /\ response (serve session_info down ∅) = error_response
  /\ response (serve session_info up ∅) = redirect "/index.html".
Proof.
  intros down up.
  destruct (store_outage_distinguished session_info_handler down
              (Scenario.one_session Scenario.student_user) "sid-0"
              eq_refl eq_refl) as (Herr & _ & Hst & _).
  destruct (store_outage_distinguished session_info_handler down ∅ "sid-0"
              eq_refl eq_refl) as (Herr0 & _ & _ & Habs).
  split; [exact Herr|]. split; [exact Hst|]. split; [exact Herr0|].
  exact (proj1 (Habs up eq_refl eq_refl eq_refl)).
Defined.

(** ** The login callback *)

Lemma login_failed_generic :
  JS.encodeURIComponent "Login failed." = "Login%20failed.".
Proof. reflexivity. Qed.

(** A profile without emails makes the verify callback call [done(err)];
    the callback request then ends in the error response, not in a redirect,
    so not every failed login reaches the failure route. *)
Lemma malformed_profile_not_redirected :
  verify Scenario.no_email = done_err
  /\ response (serve (auth_google_callback verify
                        (exchange_profile Scenario.no_email))
                 (Scenario.request 0 true None) ∅)
     = error_response
  /\ ~ (forall (x : Exchange) (e : Env) (st : gmap string Session),
          store_up e = true ->
          (forall profile u, x = exchange_profile profile ->
                             verify profile <> done_user u) ->
          response (serve (auth_google_callback verify x) e st)
          = redirect "/auth/failure").
Proof.
  split; [reflexivity|]. split; [reflexivity|].
  intros H.
  specialize (H (exchange_profile Scenario.no_email)
                (Scenario.request 0 true None) ∅ eq_refl).
  assert (Hno : forall profile u,
             exchange_profile Scenario.no_email = exchange_profile profile ->
             verify profile <> done_user u).
  { intros profile u [= <-]. discriminate. }
  specialize (H Hno). discriminate H.
Qed.

(** C8, amended: with the store answering, a callback request whose
    profile the verify callback accepts ends in the redirect to
    "/dashboard".  One that the strategy fails with a message (the policy's
    rejection, or consent refused at the provider with a non-empty
    description) ends in the redirect to "/auth/failure" and saves the
    message in the session of the request, whose id is sent to the client
    unless the secure cookie is withheld; the failure route, requested with
    that session, redirects to "/index.html" with the URL-encoded oldest
    pending message in [authError], which is that message when none was
    pending before.  A refusal without description, or with an empty one,
    flashes nothing and has the outcome of a bare redirect to
    "/auth/failure"; the failure route reports "Login failed." whenever no
    message is pending.  A strategy error (a failed code exchange, or a
    profile on which the verify callback throws) ends in the error
    response. *)
Theorem login_callback_outcomes (e : Env) (st : gmap string Session) :
  store_up e = true ->
  (forall profile u, verify profile = done_user u ->
     response (serve (auth_google_callback verify (exchange_profile profile)) e st)
     = redirect "/dashboard")
  /\ (forall x msg,
        (exists profile, x = exchange_profile profile
                         /\ verify profile = done_fail msg)
        \/ (x = exchange_denied (Some msg) /\ msg <> "") ->
        let res := serve (auth_google_callback verify x) e st in
        response res = redirect "/auth/failure"
        /\ exists sid s,
             store_after res = <[sid := s]> (loaded_store e st)
             /\ flash s = Some (pending_messages e st ++ [msg])%list
             /\ set_cookie res = (if cookie_withheld e then None else Some sid)
             /\ forall e', cookieId e' = Some sid -> store_up e' = true ->
                  now e' < expires (cookie s) ->
                  response (serve auth_failure e' (store_after res))
                  = redirect ("/index.html?authError="
                              +:+ JS.encodeURIComponent
                                    match pending_messages e st with
                                    | m :: _ => m
                                    | [] => msg
                                    end))
  /\ (forall description, description = None \/ description = Some "" ->
        serve (auth_google_callback verify (exchange_denied description)) e st
        = serve (fun _ r => (r, redirect "/auth/failure")) e st
        /\ response (serve (auth_google_callback verify
                              (exchange_denied description)) e st)
           = redirect "/auth/failure")
  /\ (forall e' st', store_up e' = true ->
        response (serve auth_failure e' st')
        = redirect ("/index.html?authError="
                    +:+ JS.encodeURIComponent
                          match pending_messages e' st' with
                          | m :: _ => m
                          | [] => "Login failed."
                          end)
        /\ (pending_messages e' st' = [] ->
            response (serve auth_failure e' st')
            = redirect "/index.html?authError=Login%20failed."))
  /\ response (serve (auth_google_callback verify exchange_failed) e st)
     = error_response
  /\ (forall profile, verify profile = done_err ->
        response (serve (auth_google_callback verify (exchange_profile profile))
                    e st)
        = error_response).
Proof.
  intros Hup.
  destruct (middleware_answers e st Hup) as [r Hr].
  split; [|split; [|split; [|split; [|split]]]].
  - intros profile u Hv.
    apply (login_success verify profile u e st Hv Hup).
  - intros x msg Hx res.
    destruct (flash_redirect_outcome (auth_google_callback verify x) msg e st)
      as (Hresp & sid & s & Hset & Hst & _ & _ & Hfl & _); [|assumption|].
    { intros r0. unfold auth_google_callback.
      destruct Hx as [(profile & -> & Hv)|[-> Hne]].
      - rewrite Hv. rewrite (verify_fail_message profile msg Hv). reflexivity.
      - unfold flash_failure. apply String.eqb_neq in Hne. by rewrite Hne. }
    fold res in Hresp, Hset, Hst.
    split; [exact Hresp|]. exists sid, s.
    assert (Hlook : store_after res !! sid = Some s)
      by (rewrite Hst; apply lookup_insert_eq).
    do 3 (split; [assumption|]).
    intros e' Hc' Hup' Ht'.
    rewrite (auth_failure_response e' (store_after res) Hup').
    rewrite (pending_messages_live e' (store_after res) sid s Hc' Hup' Hlook Ht').
    rewrite Hfl. by destruct (pending_messages e st).
  - intros description Hd.
    assert (Heq : serve (auth_google_callback verify (exchange_denied description))
                    e st
                  = serve (fun _ r => (r, redirect "/auth/failure")) e st).
    { unfold serve, auth_google_callback. rewrite Hr.
      by destruct Hd as [-> | ->]. }
    split; [exact Heq|]. rewrite Heq. unfold serve. by rewrite Hr.
  - intros e' st' Hup'.
    rewrite (auth_failure_response e' st' Hup'). split; [reflexivity|].
    by intros ->.
  - unfold serve, auth_google_callback. by rewrite Hr.
  - intros profile Hv. unfold serve, auth_google_callback. by rewrite Hr, Hv.
Qed.

Lemma login_callback_outcomes_witness :
  let e := Scenario.request 0 true None in
  let refused := exchange_denied (Some "access was refused") in
  verify Scenario.student = done_user Scenario.student_user
  /\ response (serve (auth_google_callback verify
                        (exchange_profile Scenario.student)) e ∅)
     = redirect "/dashboard"
  /\ verify Scenario.outsider = done_fail rejection_message
  /\ response (serve (auth_google_callback verify
                        (exchange_profile Scenario.outsider)) e ∅)
     = redirect "/auth/failure"
  /\ response (serve (auth_google_callback verify refused) e ∅)
     = redirect "/auth/failure"
  /\ set_cookie (serve (auth_google_callback verify refused) e ∅)
     = Some "sid-a"
  /\ response (serve auth_failure (Scenario.request 1 true (Some "sid-a"))
                 (store_after (serve (auth_google_callback verify refused) e ∅)))
     = redirect "/index.html?authError=access%20was%20refused"
  /\ response (serve auth_failure e ∅)
     = redirect "/index.html?authError=Login%20failed.".
Proof.
  intros e refused.
  destruct (login_callback_outcomes e ∅ eq_refl)
    as (Hok & Hfail & _ & Hgen & _).
  split; [reflexivity|].
  split; [exact (Hok Scenario.student Scenario.student_user eq_refl)|].
  split; [reflexivity|].
  split.
  { apply (Hfail (exchange_profile Scenario.outsider) rejection_message).
    left. by exists Scenario.outsider. }
  assert (Hne : "access was refused" <> "") by discriminate.
  destruct (Hfail refused "access was refused" (or_intror (conj eq_refl Hne)))
    as (Hresp & sid & s & Hst & _ & Hset & Hpage).
  assert (Hsid : sid = "sid-a") by (vm_compute in Hset; congruence).
  subst sid.
  assert (Hlive : 1 < expires (cookie s)).
  { assert (Hlook : store_after (serve (auth_google_callback verify refused) e ∅)
                    !! "sid-a" = Some s)
      by (rewrite Hst; apply lookup_insert_eq).
    vm_compute in Hlook. injection Hlook as <-. reflexivity. }
  split; [exact Hresp|]. split; [reflexivity|].
  split.
  - exact (Hpage (Scenario.request 1 true (Some "sid-a")) eq_refl eq_refl Hlive).
  - exact (proj2 (Hgen e ∅ eq_refl) eq_refl).
Defined.

(** ** The dashboard *)

(** In server.js and part_000 the response to /dashboard does not depend
    on the role: a session with the role "student" and one with the role
    "general" are both answered with the file public/dashboard.html. *)
Lemma dashboard_same_for_every_role :
  let e := Scenario.request Scenario.day true (Some "sid-0") in
  role Scenario.student_user = "student"
  /\ role Scenario.general_user <> "student"
  /\ authenticated e (Scenario.one_session Scenario.student_user) = true
  /\ authenticated e (Scenario.one_session Scenario.general_user) = true
  /\ response (serve dashboard e (Scenario.one_session Scenario.student_user))
     = sendFile ["public"; "dashboard.html"]
  /\ response (serve dashboard e (Scenario.one_session Scenario.general_user))
     = response (serve dashboard e (Scenario.one_session Scenario.student_user)).
Proof. intros e. repeat split; try reflexivity. discriminate. Qed.

(** C9, amended: in the revision that renders the dashboard itself
    (part_001), an authenticated request to /dashboard is answered with the
    page of the session's user, whose content block is the student block
    when the role is "student" and the generic block otherwise, and the two
    blocks differ; in server.js and part_000 the same request is answered
    with the file public/dashboard.html, whatever the role. *)
Theorem dashboard_by_role (e : Env) (st : gmap string Session) (sid : string)
    (s : Session) (u : User) :
  cookieId e = Some sid -> store_up e = true ->
  st !! sid = Some s -> now e < expires (cookie s) ->
  passport_user s = Some u ->
  response (serve InlineDashboard.dashboard e st) = send (InlineDashboard.page u)
  /\ (role u = "student" ->
        InlineDashboard.page u
        = InlineDashboard.page_head +:+ name u +:+ InlineDashboard.after_name
            +:+ email u +:+ InlineDashboard.after_email +:+ "student"
            +:+ InlineDashboard.after_role +:+ InlineDashboard.student_block
            +:+ InlineDashboard.page_tail)
  /\ (role u <> "student" ->
        InlineDashboard.page u
        = InlineDashboard.page_head +:+ name u +:+ InlineDashboard.after_name
            +:+ email u +:+ InlineDashboard.after_email +:+ role u
            +:+ InlineDashboard.after_role +:+ InlineDashboard.generic_block
            +:+ InlineDashboard.page_tail)
  /\ InlineDashboard.student_block <> InlineDashboard.generic_block
  /\ response (serve dashboard e st) = sendFile ["public"; "dashboard.html"].
Proof.
  intros Hc Hup Hs Ht Hu.
  split; [|split; [|split; [|split]]].
  - unfold InlineDashboard.dashboard.
    by rewrite (serve_authenticated _ e st sid s u Hc Hup Hs Ht Hu).
  - intros Hr. unfold InlineDashboard.page, InlineDashboard.role_block.
    by rewrite Hr.
  - intros Hr. unfold InlineDashboard.page, InlineDashboard.role_block, JS.strict_eq.
    destruct (String.eqb_spec (role u) "student"); [contradiction | reflexivity].
  - discriminate.
  - unfold dashboard.
    by rewrite (serve_authenticated _ e st sid s u Hc Hup Hs Ht Hu).
Qed.

Lemma dashboard_by_role_witness :
  let e := Scenario.request Scenario.day true (Some "sid-0") in
  response (serve InlineDashboard.dashboard e
              (Scenario.one_session Scenario.student_user))
  = send (InlineDashboard.page Scenario.student_user)
  /\ response (serve InlineDashboard.dashboard e
                 (Scenario.one_session Scenario.general_user))
     = send (InlineDashboard.page Scenario.general_user)
  /\ InlineDashboard.page Scenario.general_user
     = InlineDashboard.page_head +:+ "G Eneral" +:+ InlineDashboard.after_name
         +:+ "g@example.org" +:+ InlineDashboard.after_email +:+ "general"
         +:+ InlineDashboard.after_role +:+ InlineDashboard.generic_block
         +:+ InlineDashboard.page_tail.
Proof.
  intros e.
  assert (Ht : now e < maxAge) by reflexivity.
  destruct (dashboard_by_role e (Scenario.one_session Scenario.student_user)
              "sid-0" _ Scenario.student_user eq_refl eq_refl eq_refl Ht eq_refl)
    as (Hstu & _).
  destruct (dashboard_by_role e (Scenario.one_session Scenario.general_user)
              "sid-0" _ Scenario.general_user eq_refl eq_refl eq_refl Ht eq_refl)
    as (Hgen & _ & Hpage & _).
  split; [exact Hstu|]. split; [exact Hgen|].
  apply Hpage. discriminate.
Defined.

(** * Further properties of the code *)

(** ** The verify callback *)

Lemma two_if_authorize (E : string) : TwoIf.authorize E = authorize E.
Proof.
  unfold TwoIf.authorize, authorize.
  destruct (JS.endsWith E institutional_suffix), (JS.strict_eq E allow_listed);
    reflexivity.
Qed.

Lemma two_if_verify (profile : Profile) : TwoIf.verify profile = verify profile.
Proof.
  unfold TwoIf.verify, verify.
  destruct (first_email profile) as [E|]; [|reflexivity].
  by rewrite two_if_authorize.
Qed.

(** Only the first email of the profile is looked at: when it is not
    admitted the login is rejected, whatever addresses follow it. *)
Theorem verify_ignores_later_emails (E : string) (rest : list string)
    (display : string) :
  ~ permitted E ->
  verify {| emails := Some (E :: rest); displayName := display |}
  = done_fail rejection_message
  /\ TwoIf.verify {| emails := Some (E :: rest); displayName := display |}
     = done_fail rejection_message.
Proof.
  intros Hn. rewrite two_if_verify.
  destruct (authorization_cases_verify
              {| emails := Some (E :: rest); displayName := display |} E eq_refl)
    as [[Hp _]|[_ Hv]]; [contradiction | by split].
Qed.

Lemma verify_ignores_later_emails_witness :
  ~ permitted "random@gmail.com"
  /\ permitted "avagarimike11@gmail.com"
  /\ verify {| emails := Some ["random@gmail.com"; "avagarimike11@gmail.com"];
               displayName := "R Andom" |}
     = done_fail rejection_message.
Proof.
  assert (Hn : ~ permitted "random@gmail.com").
  { intros Hp. by apply authorize_true_iff in Hp. }
  split; [exact Hn|]. split; [by right|].
  exact (proj1 (verify_ignores_later_emails "random@gmail.com"
                  ["avagarimike11@gmail.com"] "R Andom" Hn)).
Defined.

Lemma verify_user_granted (profile : Profile) (u : User) :
  verify profile = done_user u ->
  granted u /\ first_email profile = Some (email u)
  /\ name u = displayName profile.
Proof.
  intros Hv. destruct (first_email profile) as [E|] eqn:HE.
  - destruct (authorization_cases_verify profile E HE) as [[Hp Hu]|[_ Hf]].
    + rewrite Hu in Hv. injection Hv as <-. by repeat split.
    + rewrite Hf in Hv. discriminate.
  - unfold verify in Hv. rewrite HE in Hv. discriminate.
Qed.

(** Every user object the verify callback hands to [done] has the role
    "student", the profile's first email, which the policy admits, and the
    profile's display name: the role "general" is never handed out. *)
Theorem verify_grants_students_only (profile : Profile) (u : User) :
  verify profile = done_user u \/ TwoIf.verify profile = done_user u ->
  role u = "student" /\ role u <> "general"
  /\ permitted (email u)
  /\ first_email profile = Some (email u)
  /\ name u = displayName profile.
Proof.
  rewrite two_if_verify. intros Hv.
  assert (Hv' : verify profile = done_user u) by (destruct Hv; assumption).
  destruct (verify_user_granted profile u Hv') as ([Hr Hp] & HE & Hn).
  repeat split; try assumption. rewrite Hr. discriminate.
Qed.

Lemma verify_grants_students_only_witness :
  verify Scenario.student = done_user Scenario.student_user
  /\ role Scenario.student_user = "student"
  /\ permitted (email Scenario.student_user).
Proof.
  destruct (verify_grants_students_only Scenario.student Scenario.student_user
              (or_introl eq_refl)) as (Hr & _ & Hp & _).
  split; [reflexivity|]. split; [exact Hr | exact Hp].
Defined.

(** ** The secure flag of the session cookie *)

(** The second conjunct of line 59 of server.js never changes the outcome:
    the cookie is marked secure exactly when [NODE_ENV] is "production", as
    in part_001; an unset or empty [NODE_ENV] gives a cookie that is not
    secure. *)
Theorem secure_flag_production_only (NODE_ENV : option string) :
  Config.secure NODE_ENV = Config.secure_part_001 NODE_ENV
  /\ (Config.secure NODE_ENV = true <-> NODE_ENV = Some "production")
  /\ Config.secure None = false /\ Config.secure (Some "") = false.
Proof.
  unfold Config.secure, Config.secure_part_001, Config.equals, Config.app_env,
    Config.or_default.
  destruct NODE_ENV as [v|]; [|by repeat split].
  destruct (String.eqb_spec v "production") as [->|Hne].
  - by repeat split.
  - repeat split; try done. intros [= ->]. done.
Qed.

(** ** URL encoding of the failure message *)

Lemma hex_digit_unreserved (n : N) : JS.uri_unreserved (JS.hex_digit n) = true.
Proof.
  unfold JS.hex_digit.
  repeat match goal with
         | |- context [match ?x with _ => _ end] => destruct x
         end; reflexivity.
Qed.

Lemma percent_not_unreserved : JS.uri_unreserved "%" = false.
Proof. reflexivity. Qed.

Lemma unreserved_query_safe (c : ascii) :
  JS.uri_unreserved c = true -> query_safe c = true.
Proof. intros H. unfold query_safe. by rewrite H. Qed.

Lemma query_safe_not_delimiter (c : ascii) :
  query_safe c = true -> query_delimiter c = false.
Proof.
  destruct c as [[] [] [] [] [] [] [] []]; intros H; try reflexivity;
    discriminate H.
Qed.

Lemma string_forallb_impl (P Q : ascii -> bool) (s : string) :
  (forall c, P c = true -> Q c = true) ->
  string_forallb P s = true -> string_forallb Q s = true.
Proof.
  intros HPQ. induction s as [|c s IH]; [done|].
  simpl. rewrite !andb_true_iff. intros [Hc Hs]. auto.
Qed.

Lemma encode_query_safe (s : string) :
  string_forallb query_safe (JS.encodeURIComponent s) = true.
Proof.
  induction s as [|c s IH]; [done|].
  cbn [JS.encodeURIComponent]. destruct (JS.uri_unreserved c) eqn:Hc.
  - cbn [string_forallb]. by rewrite IH, (unreserved_query_safe c Hc).
  - cbn [string_forallb]. rewrite IH.
    by rewrite !(unreserved_query_safe _ (hex_digit_unreserved _)).
Qed.

(** Whatever the message, its encoding has only unreserved characters and
    percent signs: no [&], [#], [=], [?], [/], space, quote or angle bracket
    can appear in the value of [authError]. *)
Theorem encodeURIComponent_query_safe (s : string) :
  string_forallb query_safe (JS.encodeURIComponent s) = true
  /\ string_forallb (fun c => negb (query_delimiter c))
       (JS.encodeURIComponent s) = true.
Proof.
  split; [apply encode_query_safe|].
  apply (string_forallb_impl query_safe); [|apply encode_query_safe].
  intros c Hc. by rewrite (query_safe_not_delimiter c Hc).
Qed.

Lemma encode_length (s : string) :
  (String.length s <= String.length (JS.encodeURIComponent s))%nat.
Proof.
  induction s as [|c s IH]; [done|].
  simpl. destruct (JS.uri_unreserved c); simpl; lia.
Qed.

(** The encoding changes nothing exactly when every character of the
    message is unreserved. *)
Theorem encodeURIComponent_fixed_iff (s : string) :
  JS.encodeURIComponent s = s <-> string_forallb JS.uri_unreserved s = true.
Proof.
  induction s as [|c s IH]; [done|].
  simpl. destruct (JS.uri_unreserved c) eqn:Hc; simpl.
  - rewrite <- IH. split; [by intros [= H] | by intros ->].
  - split; [|discriminate]. intros [= _ H].
    pose proof (encode_length s) as Hl.
    apply (f_equal String.length) in H. simpl in H. lia.
Qed.

Lemma hex_digit_inj (a b : N) :
  (a < 16)%N -> (b < 16)%N -> JS.hex_digit a = JS.hex_digit b -> a = b.
Proof.
  intros Ha Hb.
  assert (Ea : (a = 0 \/ a = 1 \/ a = 2 \/ a = 3 \/ a = 4 \/ a = 5 \/ a = 6
               \/ a = 7 \/ a = 8 \/ a = 9 \/ a = 10 \/ a = 11 \/ a = 12
               \/ a = 13 \/ a = 14 \/ a = 15)%N) by lia.
  assert (Eb : (b = 0 \/ b = 1 \/ b = 2 \/ b = 3 \/ b = 4 \/ b = 5 \/ b = 6
               \/ b = 7 \/ b = 8 \/ b = 9 \/ b = 10 \/ b = 11 \/ b = 12
               \/ b = 13 \/ b = 14 \/ b = 15)%N) by lia.
  clear Ha Hb.
  repeat (destruct Ea as [->|Ea]);
    (try subst a); repeat (destruct Eb as [->|Eb]); (try subst b);
    intros H; try reflexivity; discriminate H.
Qed.

Lemma byte_of_nibbles (c d : ascii) :
  (N_of_ascii c / 16 = N_of_ascii d / 16)%N ->
  (N_of_ascii c mod 16 = N_of_ascii d mod 16)%N -> c = d.
Proof.
  intros Hq Hm.
  rewrite <- (ascii_N_embedding c), <- (ascii_N_embedding d). f_equal.
  rewrite (N.div_mod' (N_of_ascii c) 16), (N.div_mod' (N_of_ascii d) 16).
  by rewrite Hq, Hm.
Qed.

(** Different messages never get the same encoding. *)
Theorem encodeURIComponent_injective (s1 s2 : string) :
  JS.encodeURIComponent s1 = JS.encodeURIComponent s2 -> s1 = s2.
Proof.
  revert s2. induction s1 as [|c s1 IH]; intros [|d s2]; simpl.
  - done.
  - destruct (JS.uri_unreserved d); discriminate.
  - destruct (JS.uri_unreserved c); discriminate.
  - destruct (JS.uri_unreserved c) eqn:Hc, (JS.uri_unreserved d) eqn:Hd.
    + intros [= -> H]. f_equal. by apply IH.
    + intros [= -> _]. by rewrite percent_not_unreserved in Hc.
    + intros [= <- _]. by rewrite percent_not_unreserved in Hd.
    + intros [= H1 H2 H]. f_equal; [|by apply IH].
      assert (Hlt : forall x : ascii, (N_of_ascii x / 16 < 16)%N
                                   /\ (N_of_ascii x mod 16 < 16)%N).
      { intros x. pose proof (N_ascii_bounded x).
        split; [apply N.Div0.div_lt_upper_bound; lia | apply N.mod_lt; lia]. }
      apply byte_of_nibbles; apply hex_digit_inj; try assumption; apply Hlt.
Qed.

Lemma encodeURIComponent_injective_witness :
  JS.encodeURIComponent "a b" = JS.encodeURIComponent "a b" /\ "a b" = "a b".
Proof.
  split; [reflexivity|].
  exact (encodeURIComponent_injective "a b" "a b" eq_refl).
Defined.

(** ** The failure route *)

(** Whatever the session holds (the message may come from the provider's
    query string), the failure route redirects to "/index.html" with a
    single [authError] value that contains no delimiter. *)
Theorem auth_failure_location (e : Env) (st : gmap string Session) :
  store_up e = true ->
  exists v,
    response (serve auth_failure e st)
    = redirect ("/index.html?authError=" +:+ v)
    /\ string_forallb (fun c => negb (query_delimiter c)) v = true.
Proof.
  intros Hup. rewrite (auth_failure_response e st Hup).
  eexists. split; [reflexivity|].
  apply (string_forallb_impl query_safe); [|apply encode_query_safe].
  intros c Hc. by rewrite (query_safe_not_delimiter c Hc).
Qed.

Lemma auth_failure_location_witness :
  exists v,
    response (serve auth_failure (Scenario.request 0 true None) ∅)
    = redirect ("/index.html?authError=" +:+ v)
    /\ string_forallb (fun c => negb (query_delimiter c)) v = true.
Proof.
  exact (auth_failure_location (Scenario.request 0 true None) ∅ eq_refl).
Defined.

Lemma pending_messages_none (e : Env) (st : gmap string Session) (sid : string) :
  cookieId e = Some sid ->
  (forall s, st !! sid = Some s -> flash s = Some []) ->
  pending_messages e st = [].
Proof.
  intros Hc Hf. unfold pending_messages, session_middleware. rewrite Hc.
  destruct (store_up e); [|reflexivity].
  destruct (store_get e st sid) as [s|] eqn:Hg; [|reflexivity].
  apply store_get_Some in Hg as [Hs _]. cbn. by rewrite (Hf s Hs).
Qed.

Lemma pending_messages_no_cookie (e : Env) (st : gmap string Session) :
  cookieId e = None -> pending_messages e st = [].
Proof.
  intros Hc. unfold pending_messages, session_middleware. by rewrite Hc.
Qed.

(** After the failure route the session of the client has an empty flash
    list, and the client is handed the id of that session unless the cookie
    is withheld. *)
Lemma auth_failure_outcome (e : Env) (st : gmap string Session) :
  store_up e = true ->
  exists sid,
    set_cookie (serve auth_failure e st)
    = (if cookie_withheld e then None else Some sid)
    /\ forall s, store_after (serve auth_failure e st) !! sid = Some s ->
                 flash s = Some [].
Proof.
  intros Hup.
  destruct (middleware_answers e st Hup) as [r Hr].
  destruct (middleware_shape e st r Hr) as (s & Hs & Hid & Hhash & Hst & _ & Hor).
  unfold serve. rewrite Hr. unfold passport_session. rewrite Hs.
  unfold auth_failure, flash_read. cbn [session set_user]. rewrite Hs.
  exists (sessionID r).
  unfold shouldSetCookie, commit, isModified. cbn. rewrite Hup, Hid, Hhash, Hst. cbn.
  rewrite (bool_decide_eq_true_2 (sessionID r = sessionID r)) by done. cbn.
  destruct (bool_decide (hash s = hash (set_flash (Some []) s))) eqn:Hm; cbn.
  - apply bool_decide_eq_true_1 in Hm. injection Hm as Hfl.
    destruct Hor as [(Hc & Hlook & Hlive) | ->]; [|discriminate].
    rewrite (bool_decide_eq_true_2 _ Hc). split; [reflexivity|].
    rewrite (loaded_store_live e st (sessionID r) s Hc Hlook Hlive).
    intros s'. rewrite lookup_alter_eq, Hlook. cbn. intros [= <-]. exact Hfl.
  - split; [destruct (cookie_withheld e),
              (bool_decide (cookieId e = Some (sessionID r))); reflexivity|].
    intros s'. rewrite lookup_insert_eq. by intros [= <-].
Qed.

(** A flash message is reported once: a second request to the failure
    route by the same client gets the generic "Login failed." *)
Theorem flash_reported_once (e1 e2 : Env) (st : gmap string Session) :
  store_up e1 = true -> store_up e2 = true ->
  cookieId e2 = set_cookie (serve auth_failure e1 st) ->
  response (serve auth_failure e2 (store_after (serve auth_failure e1 st)))
  = redirect "/index.html?authError=Login%20failed.".
Proof.
  intros Hup1 Hup2 Hc.
  destruct (auth_failure_outcome e1 st Hup1) as (sid & Hset & Hfl).
  rewrite Hset in Hc.
  rewrite (auth_failure_response e2 _ Hup2).
  destruct (cookie_withheld e1).
  - by rewrite (pending_messages_no_cookie e2 _ Hc).
  - by rewrite (pending_messages_none e2 _ sid Hc Hfl).
Qed.

Lemma flash_reported_once_witness :
  let rejected :=
    serve (auth_google_callback verify (exchange_profile Scenario.outsider))
      (Scenario.request 0 true None) ∅ in
  let first :=
    serve auth_failure (Scenario.request 1 true (Some "sid-a"))
      (store_after rejected) in
  response first
  = redirect "/index.html?authError=You%20are%20not%20a%20verified%20student%20of%20Pathfinder%20Institute%20Myanmar."
  /\ set_cookie first = Some "sid-a"
  /\ response (serve auth_failure (Scenario.request 2 true (Some "sid-a"))
                 (store_after first))
     = redirect "/index.html?authError=Login%20failed.".
Proof.
  intros rejected first. split; [reflexivity|]. split; [reflexivity|].
  exact (flash_reported_once (Scenario.request 1 true (Some "sid-a"))
           (Scenario.request 2 true (Some "sid-a")) (store_after rejected)
           eq_refl eq_refl eq_refl).
Defined.

(** ** Guarded routes and the store *)

Lemma store_after_get_dead (e : Env) (st : gmap string Session) (sid : string) :
  no_live_record (now e) st sid -> store_after_get e st sid = delete sid st.
Proof.
  intros Hdead. unfold store_after_get.
  destruct (st !! sid) as [s|] eqn:Hs; [|by rewrite delete_id].
  specialize (Hdead s Hs).
  destruct (Z.leb_spec (expires (cookie s)) (now e)); [reflexivity | lia].
Qed.

Lemma alter_absent (f : Session -> Session) (k : string)
    (m : gmap string Session) :
  m !! k = None -> alter f k m = m.
Proof.
  intros Hk. apply map_eq. intros i. destruct (decide (k = i)) as [<-|Hne].
  - by rewrite lookup_alter_eq, Hk.
  - by rewrite lookup_alter_ne.
Qed.

Lemma middleware_generated (e : Env) (st : gmap string Session) :
  cookieId e = None
  \/ (exists sid, cookieId e = Some sid /\ store_up e = true
                  /\ no_live_record (now e) st sid) ->
  session_middleware e st
  = Some {| sessionStore := loaded_store e st; fresh := 1%nat;
            sessionID := uid e O; session := Some (new_session e);
            originalId := uid e O; originalHash := (None, None);
            user := None |}.
Proof.
  unfold session_middleware, loaded_store.
  intros [Hc|(sid & Hc & Hup & Hdead)]; rewrite Hc; [reflexivity|].
  rewrite Hup. unfold store_get.
  destruct (st !! sid) as [s|] eqn:Hs; [|reflexivity].
  specialize (Hdead s Hs).
  destruct (Z.leb_spec (expires (cookie s)) (now e)); [reflexivity | lia].
Qed.

(** A request to a guarded route by a client without a session leaves no
    trace ([saveUninitialized: false]).  Without a cookie the redirect is
    the whole outcome: the store is unchanged and no cookie is set.  With a
    cookie whose record is absent or expired the response is the redirect
    and the store is the given one less that record (unchanged when the
    record was absent); no cookie is set, the new session id being another
    one than the cookie's. *)
Theorem guard_leaves_no_trace (h : Handler) (e : Env)
    (st : gmap string Session) :
  (cookieId e = None ->
     serve (ensureLoggedIn h) e st
     = {| response := redirect "/index.html"; store_after := st;
          set_cookie := None |})
  /\ (forall sid, cookieId e = Some sid -> store_up e = true ->
        no_live_record (now e) st sid ->
        response (serve (ensureLoggedIn h) e st) = redirect "/index.html"
        /\ store_after (serve (ensureLoggedIn h) e st) = delete sid st
        /\ (st !! sid = None ->
            store_after (serve (ensureLoggedIn h) e st) = st)
        /\ (uid e O <> sid ->
            set_cookie (serve (ensureLoggedIn h) e st) = None)).
Proof.
  split.
  - intros Hc. unfold serve. rewrite middleware_generated by (by left).
    unfold passport_session, ensureLoggedIn, isAuthenticated. cbn.
    unfold commit, shouldSetCookie, isModified, loaded_store. cbn. rewrite Hc.
    rewrite (bool_decide_eq_false_2 (None = Some (uid e 0%nat))) by done.
    rewrite !bool_decide_eq_true_2 by done. cbn.
    by destruct (store_up e), (cookie_withheld e).
  - intros sid Hc Hup Hdead.
    assert (Hstore : store_after (serve (ensureLoggedIn h) e st) = delete sid st).
    { unfold serve. rewrite middleware_generated by (right; by exists sid).
      unfold passport_session, ensureLoggedIn, isAuthenticated. cbn.
      unfold commit, isModified, loaded_store. cbn. rewrite Hc, Hup.
      rewrite (store_after_get_dead e st sid Hdead).
      rewrite !bool_decide_eq_true_2 by done. cbn.
      destruct (bool_decide (Some sid = Some (uid e 0%nat))) eqn:Hb;
        [|reflexivity].
      apply bool_decide_eq_true_1 in Hb. injection Hb as <-.
      apply alter_absent, lookup_delete_eq. }
    split; [|split; [exact Hstore|split]].
    + unfold serve. rewrite middleware_generated by (right; by exists sid).
      reflexivity.
    + intros Habs. rewrite Hstore. by apply delete_id.
    + intros Hne. unfold serve.
      rewrite middleware_generated by (right; by exists sid).
      unfold passport_session, ensureLoggedIn, isAuthenticated. cbn.
      unfold shouldSetCookie, isModified. cbn. rewrite Hc.
      rewrite (bool_decide_eq_false_2 (Some sid = Some (uid e 0%nat)))
        by congruence.
      rewrite !bool_decide_eq_true_2 by done. cbn.
      by destruct (cookie_withheld e).
Qed.

Lemma guard_leaves_no_trace_witness :
  no_live_record (15 * Scenario.day)
    (Scenario.one_session Scenario.student_user) "sid-0"
  /\ response (serve dashboard
                 (Scenario.request (15 * Scenario.day) true (Some "sid-0"))
                 (Scenario.one_session Scenario.student_user))
     = redirect "/index.html"
  /\ store_after (serve dashboard
                    (Scenario.request (15 * Scenario.day) true (Some "sid-0"))
                    (Scenario.one_session Scenario.student_user))
     = delete "sid-0" (Scenario.one_session Scenario.student_user)
  /\ set_cookie (serve dashboard
                   (Scenario.request (15 * Scenario.day) true (Some "sid-0"))
                   (Scenario.one_session Scenario.student_user))
     = None.
Proof.
  assert (Hd : no_live_record (15 * Scenario.day)
                 (Scenario.one_session Scenario.student_user) "sid-0").
  { intros s Hs. vm_compute in Hs. injection Hs as <-. vm_compute. discriminate. }
  split; [exact Hd|].
  destruct (proj2 (guard_leaves_no_trace dashboard_handler
                     (Scenario.request (15 * Scenario.day) true (Some "sid-0"))
                     (Scenario.one_session Scenario.student_user))
              "sid-0" eq_refl eq_refl Hd) as (Hr & Hst & _ & Hck).
  split; [exact Hr|]. split; [exact Hst|]. apply Hck. discriminate.
Defined.

Lemma commit_unmodified (e : Env) (r : Req) (s : Session) (sid' : string) :
  session r = Some s -> originalId r = sessionID r -> originalHash r = hash s ->
  cookieId e <> Some sid' ->
  commit e r !! sid' = sessionStore r !! sid'.
Proof.
  intros Hs Hid Hh Hne. unfold commit, isModified. rewrite Hs, Hid, Hh.
  rewrite !bool_decide_eq_true_2 by done. cbn.
  destruct (store_up e); cbn; [|reflexivity].
  destruct (bool_decide (cookieId e = Some (sessionID r))) eqn:Hc; [|reflexivity].
  apply bool_decide_eq_true_1 in Hc.
  apply lookup_alter_ne. congruence.
Qed.

(** A request to a guarded route whose handler only reads never changes
    the record of another session. *)
Theorem guarded_request_frame (h : Handler) (e : Env)
    (st : gmap string Session) (sid' : string) :
  read_only h -> cookieId e <> Some sid' ->
  store_after (serve (ensureLoggedIn h) e st) !! sid' = st !! sid'.
Proof.
  intros Hro Hne. unfold serve.
  destruct (session_middleware e st) as [r|] eqn:Hr; [|reflexivity].
  destruct (middleware_shape e st r Hr) as (s & Hs & Hid & Hh & Hst & _ & _).
  unfold passport_session. rewrite Hs. unfold ensureLoggedIn.
  set (r1 := set_user (passport_user s) r).
  assert (Hr1 : session r1 = Some s /\ originalId r1 = sessionID r1
                /\ originalHash r1 = hash s
                /\ sessionStore r1 = loaded_store e st) by done.
  destruct Hr1 as (Hs1 & Hid1 & Hh1 & Hst1).
  destruct (isAuthenticated r1) eqn:Ha.
  - specialize (Hro e r1 Ha). destruct (h e r1) as [r2 resp]. simpl in Hro.
    subst r2. cbn. rewrite (commit_unmodified e r1 s sid'), Hst1 by done.
    by apply loaded_store_ne.
  - cbn. rewrite (commit_unmodified e r1 s sid'), Hst1 by done.
    by apply loaded_store_ne.
Qed.

Lemma guarded_request_frame_witness :
  read_only dashboard_handler
  /\ store_after (serve dashboard
                    (Scenario.request Scenario.day true (Some "sid-9"))
                    (Scenario.one_session Scenario.student_user)) !! "sid-0"
     = Scenario.one_session Scenario.student_user !! "sid-0".
Proof.
  assert (Hro : read_only dashboard_handler) by (intros e r _; reflexivity).
  split; [exact Hro|].
  apply (guarded_request_frame dashboard_handler
           (Scenario.request Scenario.day true (Some "sid-9")) _ "sid-0" Hro).
  discriminate.
Defined.

(** ** Expiry and keeping a session alive *)

(** A session that is not used for [maxAge] after the login is over: the
    next request to a guarded route is redirected to "/index.html". *)
Theorem idle_session_expires (h : Handler) (e1 e2 : Env)
    (st : gmap string Session) (profile : Profile) (u : User) :
  verify profile = done_user u ->
  store_up e1 = true -> store_up e2 = true ->
  let login :=
    serve (auth_google_callback verify (exchange_profile profile)) e1 st in
  cookieId e2 = set_cookie login ->
  now e1 + maxAge <= now e2 ->
  response (serve (ensureLoggedIn h) e2 (store_after login))
  = redirect "/index.html".
Proof.
  intros Hv Hup1 Hup2 login Hc Ht.
  destruct (login_success verify profile u e1 st Hv Hup1)
    as (_ & sid & Hset & Hrec).
  fold login in Hset, Hrec. rewrite Hset in Hc.
  apply guard_redirects; [assumption|].
  destruct (cookie_withheld e1).
  - unfold authenticated, session_middleware. by rewrite Hc.
  - apply (no_live_record_unauthenticated e2 _ sid Hc).
    intros s Hs. rewrite Hrec in Hs. injection Hs as <-. exact Ht.
Qed.

Lemma idle_session_expires_witness :
  let login :=
    serve (auth_google_callback verify (exchange_profile Scenario.student))
      (Scenario.request 0 true None) ∅ in
  set_cookie login = Some "sid-b"
  /\ 0 + maxAge <= 14 * Scenario.day
  /\ response (serve session_info
                 (Scenario.request (14 * Scenario.day) true (Some "sid-b"))
                 (store_after login))
     = redirect "/index.html".
Proof.
  intros login.
  assert (Ht : 0 + maxAge <= 14 * Scenario.day) by (vm_compute; discriminate).
  split; [reflexivity|]. split; [exact Ht|].
  exact (idle_session_expires session_info_handler
           (Scenario.request 0 true None)
           (Scenario.request (14 * Scenario.day) true (Some "sid-b")) ∅
           Scenario.student Scenario.student_user
           eq_refl eq_refl eq_refl eq_refl Ht).
Defined.

Lemma last_default_irrelevant (x : Z) (l : list Z) (d d' : Z) :
  List.last (x :: l) d = List.last (x :: l) d'.
Proof.
  revert x. induction l as [|y l IH]; intros x; [reflexivity|].
  change (List.last (y :: l) d = List.last (y :: l) d'). apply IH.
Qed.

Lemma visit_step (h : Handler) (ids : nat -> string) (sid : string) (t t0 : Z)
    (st : gmap string Session) (s : Session) (u : User) :
  read_only h ->
  st !! sid = Some s -> passport_user s = Some u -> stamped t0 s ->
  t0 <= t < t0 + maxAge ->
  exists s',
    visits (ensureLoggedIn h) ids sid [t] st !! sid = Some s'
    /\ passport_user s' = Some u /\ flash s' = flash s /\ stamped t s'.
Proof.
  intros Hro Hs Hu Hst [Hlo Hhi]. unfold visits. cbn [fold_left].
  set (e := {| now := t; store_up := true; uid := ids; cookieId := Some sid |}).
  assert (Hlive : now e < expires (cookie s)) by (rewrite Hst; cbn; lia).
  rewrite (serve_read_only_store h e st sid s u Hro eq_refl eq_refl Hs Hlive Hu).
  rewrite lookup_alter_eq, Hs. eexists. split; [reflexivity|].
  unfold stamped, touch in *. cbn. rewrite Hst. cbn. by repeat split.
Qed.

(** A client that comes back to a guarded route each time less than
    [maxAge] after its previous request stays logged in, however long the
    series: after it the store still holds the session with the same user,
    now expiring [maxAge] after the last request. *)
Theorem session_kept_alive (h : Handler) (ids : nat -> string) (sid : string)
    (u : User) (times : list Z) :
  read_only h ->
  forall (t0 : Z) (st : gmap string Session) (s : Session),
    st !! sid = Some s -> passport_user s = Some u -> stamped t0 s ->
    within_window t0 times ->
    exists s',
      visits (ensureLoggedIn h) ids sid times st !! sid = Some s'
      /\ passport_user s' = Some u /\ flash s' = flash s
      /\ stamped (List.last times t0) s'.
Proof.
  intros Hro. induction times as [|t rest IH]; intros t0 st s Hs Hu Hst Hw.
  - exists s. by repeat split.
  - destruct Hw as [Ht Hw].
    destruct (visit_step h ids sid t t0 st s u Hro Hs Hu Hst Ht)
      as (s1 & Hs1 & Hu1 & Hf1 & Hst1).
    destruct (IH t (visits (ensureLoggedIn h) ids sid [t] st) s1 Hs1 Hu1 Hst1 Hw)
      as (s' & Hs' & Hu' & Hf' & Hst').
    exists s'. split; [exact Hs'|]. split; [exact Hu'|].
    split; [congruence|].
    destruct rest as [|t' rest']; [exact Hst'|].
    change (List.last (t :: t' :: rest') t0) with (List.last (t' :: rest') t0).
    by rewrite (last_default_irrelevant t' rest' t0 t).
Qed.

Lemma session_kept_alive_witness :
  within_window 0 [10 * Scenario.day; 20 * Scenario.day; 30 * Scenario.day]
  /\ exists s',
       visits dashboard Scenario.ids "sid-0"
         [10 * Scenario.day; 20 * Scenario.day; 30 * Scenario.day]
         (Scenario.one_session Scenario.student_user) !! "sid-0" = Some s'
       /\ passport_user s' = Some Scenario.student_user
       /\ expires (cookie s') = 30 * Scenario.day + maxAge.
Proof.
  assert (Hw : within_window 0
                 [10 * Scenario.day; 20 * Scenario.day; 30 * Scenario.day]).
  { cbn. unfold Scenario.day, maxAge. lia. }
  split; [exact Hw|].
  destruct (session_kept_alive dashboard_handler Scenario.ids "sid-0"
              Scenario.student_user
              [10 * Scenario.day; 20 * Scenario.day; 30 * Scenario.day]
              (fun e r _ => eq_refl) 0
              (Scenario.one_session Scenario.student_user)
              _ eq_refl eq_refl eq_refl Hw)
    as (s' & Hs' & Hu' & _ & Hst').
  exists s'. split; [exact Hs'|]. split; [exact Hu'|].
  unfold stamped in Hst'. by rewrite Hst'.
Defined.

(** ** Logout and login: the rest of the store *)

(** When the store calls back with an error, /logout never answers with
    the redirect: the error goes to [next(err)] (line 163), whether it
    arises while the session is loaded or inside [req.logout]; the store is
    left as it was and no cookie is set. *)
Theorem logout_store_outage (e : Env) (st : gmap string Session) :
  store_up e = false ->
  serve logout e st
  = {| response := error_response; store_after := st; set_cookie := None |}.
Proof.
  intros Hdown. unfold serve, session_middleware. rewrite Hdown.
  destruct (cookieId e) as [sid|] eqn:Hc; [reflexivity|].
  unfold logout, req_logout, passport_session. cbn. rewrite Hdown.
  unfold commit, shouldSetCookie, isModified. cbn. rewrite Hdown, Hc. cbn.
  destruct (cookie_withheld e); [reflexivity|].
  rewrite (bool_decide_eq_false_2 (None = Some (uid e 0%nat))) by done.
  rewrite (bool_decide_eq_true_2 (uid e 0%nat = uid e 0%nat)) by done.
  by rewrite bool_decide_eq_true_2.
Qed.

Lemma logout_store_outage_witness :
  serve logout (Scenario.request Scenario.day false None)
    (Scenario.one_session Scenario.student_user)
  = {| response := error_response;
       store_after := Scenario.one_session Scenario.student_user;
       set_cookie := None |}.
Proof.
  exact (logout_store_outage (Scenario.request Scenario.day false None)
           (Scenario.one_session Scenario.student_user) eq_refl).
Defined.

(** /logout removes the session of the request and nothing else: the
    record of any other session id (one that is not among the ids drawn for
    the regenerated session) is as before. *)
Theorem logout_frame (e : Env) (st : gmap string Session) (sid' : string) :
  cookieId e <> Some sid' -> sid' <> uid e 0%nat -> sid' <> uid e 1%nat ->
  store_after (serve logout e st) !! sid' = st !! sid'.
Proof.
  intros Hc H0 H1. unfold serve.
  destruct (session_middleware e st) as [r|] eqn:Hr; [|reflexivity].
  destruct (store_up e) eqn:Hup.
  - assert (Hshape : sessionStore r = loaded_store e st /\ sessionID r <> sid'
                     /\ uid e (fresh r) <> sid' /\ is_Some (session r)).
    { destruct (middleware_shape e st r Hr) as (s & Hs & _ & _ & Hst & _ & _).
      split; [exact Hst|].
      unfold session_middleware in Hr.
      destruct (cookieId e) as [sid|] eqn:Hcid.
      - rewrite Hup in Hr.
        destruct (store_get e st sid); injection Hr as <-; cbn;
          repeat split; try congruence; by eexists.
      - injection Hr as <-. cbn. repeat split; try congruence. by eexists. }
    destruct Hshape as (Hst & Hid & Hfr & [s Hs]).
    unfold logout, req_logout, passport_session. rewrite Hs.
    cbn [session set_user]. rewrite Hs, Hup.
    unfold session_destroy. rewrite Hup. cbn. rewrite Hst.
    rewrite lookup_delete_ne by done.
    rewrite lookup_delete_ne by done.
    rewrite lookup_insert_ne by done.
    by apply loaded_store_ne.
  - destruct (middleware_shape e st r Hr) as (s & Hs & Hid & Hh & Hst & _ & _).
    unfold logout, req_logout, passport_session. rewrite Hs.
    cbn [session set_user]. rewrite Hs, Hup. cbn.
    unfold commit. cbn. rewrite Hs, Hup. cbn. rewrite Hst.
    by apply loaded_store_ne.
Qed.

Lemma logout_frame_witness :
  store_after (serve logout (Scenario.request Scenario.day true (Some "sid-9"))
                 (Scenario.one_session Scenario.student_user)) !! "sid-0"
  = Scenario.one_session Scenario.student_user !! "sid-0".
Proof.
  apply (logout_frame (Scenario.request Scenario.day true (Some "sid-9")));
    discriminate.
Defined.

(** A login by a client that already has a live session draws a new
    session id: the store afterwards is the given one with the record of
    the old id removed and the logged-in session put under the new id, and
    the new id is sent to the client unless the secure cookie is withheld.
    The old id keeps no record unless the generator draws it again. *)
Theorem login_rotates_session_id (profile : Profile) (u : User) (e : Env)
    (st : gmap string Session) (sid : string) (s : Session) :
  verify profile = done_user u -> store_up e = true ->
  cookieId e = Some sid -> st !! sid = Some s -> now e < expires (cookie s) ->
  let login :=
    serve (auth_google_callback verify (exchange_profile profile)) e st in
  set_cookie login = (if cookie_withheld e then None else Some (uid e O))
  /\ store_after login
     = <[uid e O := {| cookie := new_cookie e; passport_user := Some u;
                       flash := None |}]> (delete sid st)
  /\ (uid e O <> sid -> store_after login !! sid = None).
Proof.
  intros Hv Hup Hc Hs Ht login.
  assert (Hstore : store_after login
                   = <[uid e O := {| cookie := new_cookie e;
                                     passport_user := Some u; flash := None |}]>
                       (delete sid st)).
  { subst login. unfold serve.
    rewrite (middleware_live e st sid s Hc Hup Hs Ht).
    unfold passport_session, auth_google_callback. cbn [session]. rewrite Hv.
    unfold req_logIn. rewrite Hup. cbn.
    unfold commit, isModified. cbn. rewrite Hup, Hc. cbn.
    match goal with |- (if ?b then _ else _) = _ => destruct b end.
    - by rewrite insert_insert_eq.
    - destruct (bool_decide (Some sid = Some (uid e 0%nat))); [|reflexivity].
      apply map_eq. intros k. destruct (decide (uid e 0%nat = k)) as [<-|Hk].
      + by rewrite lookup_alter_eq, !lookup_insert_eq.
      + by rewrite lookup_alter_ne. }
  split; [|split; [exact Hstore|]].
  - subst login. unfold serve.
    rewrite (middleware_live e st sid s Hc Hup Hs Ht).
    unfold passport_session, auth_google_callback. cbn [session]. rewrite Hv.
    unfold req_logIn. rewrite Hup. cbn.
    unfold shouldSetCookie, isModified. cbn. rewrite Hc.
    destruct (cookie_withheld e); [reflexivity|].
    destruct (decide (sid = uid e 0%nat)) as [Heq|Hne].
    + by rewrite (bool_decide_eq_true_2 (Some sid = Some (uid e 0%nat)))
        by congruence.
    + rewrite (bool_decide_eq_false_2 (Some sid = Some (uid e 0%nat)))
        by congruence.
      by rewrite (bool_decide_eq_false_2 (sid = uid e 0%nat)).
  - intros Hne. rewrite Hstore, lookup_insert_ne by done.
    apply lookup_delete_eq.
Qed.

Lemma login_rotates_session_id_witness :
  let login :=
    serve (auth_google_callback verify (exchange_profile Scenario.student))
      (Scenario.request Scenario.day true (Some "sid-0"))
      (Scenario.one_session Scenario.general_user) in
  set_cookie login = Some "sid-a"
  /\ store_after login !! "sid-0" = None
  /\ store_after login !! "sid-a"
     = Some {| cookie := new_cookie (Scenario.request Scenario.day true
                                       (Some "sid-0"));
               passport_user := Some Scenario.student_user; flash := None |}.
Proof.
  intros login.
  assert (Ht : Scenario.day < maxAge) by reflexivity.
  destruct (login_rotates_session_id Scenario.student Scenario.student_user
              (Scenario.request Scenario.day true (Some "sid-0"))
              (Scenario.one_session Scenario.general_user) "sid-0" _
              eq_refl eq_refl eq_refl eq_refl Ht) as (Hset & Hstore & Hold).
  fold login in Hset, Hstore, Hold.
  split; [exact Hset|]. split; [apply Hold; discriminate|].
  rewrite Hstore. apply lookup_insert_eq.
Defined.

(** ** Only granted users are ever stored *)

Lemma only_granted_empty : only_granted ∅.
Proof. intros sid s u Hs. by rewrite lookup_empty in Hs. Qed.

Lemma only_granted_delete (k : string) (st : gmap string Session) :
  only_granted st -> only_granted (delete k st).
Proof.
  intros H sid s u Hs. destruct (decide (k = sid)) as [->|Hne].
  - by rewrite lookup_delete_eq in Hs.
  - rewrite lookup_delete_ne in Hs by done. by apply (H sid s u).
Qed.

Lemma only_granted_insert (k : string) (x : Session) (st : gmap string Session) :
  (forall u, passport_user x = Some u -> granted u) ->
  only_granted st -> only_granted (<[k := x]> st).
Proof.
  intros Hx H sid s u Hs. destruct (decide (k = sid)) as [->|Hne].
  - rewrite lookup_insert_eq in Hs. injection Hs as <-. apply Hx.
  - rewrite lookup_insert_ne in Hs by done. by apply (H sid s u).
Qed.

Lemma only_granted_alter_cookie (k : string) (c : Cookie)
    (st : gmap string Session) :
  only_granted st -> only_granted (alter (set_cookie_of c) k st).
Proof.
  intros H sid s u Hs Hu. destruct (decide (k = sid)) as [->|Hne].
  - rewrite lookup_alter_eq in Hs.
    destruct (st !! sid) as [s0|] eqn:Hs0; [|discriminate].
    injection Hs as <-. by apply (H sid s0 u).
  - rewrite lookup_alter_ne in Hs by done. by apply (H sid s u).
Qed.

Lemma commit_granted (e : Env) (r : Req) :
  req_granted r -> only_granted (commit e r).
Proof.
  intros [Hst Hsess]. unfold commit.
  destruct (session r) as [s|]; [|exact Hst].
  destruct (store_up e); cbn; [|exact Hst].
  destruct (isModified r s).
  - apply only_granted_insert; [|exact Hst]. intros u Hu. by apply (Hsess s u).
  - destruct (bool_decide _); [|exact Hst]. by apply only_granted_alter_cookie.
Qed.

Lemma middleware_granted (e : Env) (st : gmap string Session) (r : Req) :
  only_granted st -> session_middleware e st = Some r -> req_granted r.
Proof.
  intros Hst Hr.
  destruct (middleware_shape e st r Hr) as (s & Hs & _ & _ & Hstore & _ & Hor).
  split.
  { rewrite Hstore. intros k s' u Hk. apply (Hst k s' u).
    by apply (loaded_store_lookup e). }
  intros s' u Hs' Hu. rewrite Hs in Hs'. injection Hs' as <-.
  destruct Hor as [(_ & Hlook & _) | ->]; [|discriminate].
  by apply (Hst (sessionID r) s u).
Qed.

Lemma passport_session_granted (r : Req) :
  req_granted r -> req_granted (passport_session r).
Proof. unfold passport_session. by destruct (session r). Qed.

Lemma keeps_ensureLoggedIn (h : Handler) :
  keeps_granted h -> keeps_granted (ensureLoggedIn h).
Proof.
  intros Hh e r Hr. unfold ensureLoggedIn.
  destruct (isAuthenticated r); [by apply Hh | exact Hr].
Qed.

Lemma keeps_read_handlers :
  keeps_granted session_info_handler /\ keeps_granted dashboard_handler
  /\ keeps_granted InlineDashboard.dashboard_handler.
Proof.
  split; [|split]; intros e r Hr;
    unfold session_info_handler, InlineDashboard.dashboard_handler,
      dashboard_handler; try destruct (user r); exact Hr.
Qed.

Lemma flash_push_granted (msg : string) (r : Req) :
  req_granted r -> req_granted (flash_push msg r).
Proof.
  intros Hr. unfold flash_push.
  destruct (session r) as [s|] eqn:Hs; [|exact Hr].
  destruct Hr as [Hst Hsess].
  split; [exact Hst|]. intros s' u [= <-] Hu. by apply (Hsess s u).
Qed.

Lemma keeps_auth_failure : keeps_granted auth_failure.
Proof.
  intros e r Hr. unfold auth_failure, flash_read.
  destruct (session r) as [s|] eqn:Hs; cbn; [|exact Hr].
  destruct Hr as [Hst Hsess].
  split; [exact Hst|]. intros s' u [= <-] Hu. by apply (Hsess s u).
Qed.

Lemma flash_failure_granted (message : option string) (r : Req) :
  req_granted r -> req_granted (flash_failure message r).
Proof.
  intros Hr. unfold flash_failure. destruct message as [msg|]; [|exact Hr].
  destruct (String.eqb msg ""); [exact Hr | by apply flash_push_granted].
Qed.

Lemma keeps_auth_google_callback (vf : Profile -> Done) (x : Exchange) :
  (forall profile u, vf profile = done_user u -> granted u) ->
  keeps_granted (auth_google_callback vf x).
Proof.
  intros Hvf e r Hr. unfold auth_google_callback.
  destruct x as [|description|profile]; cbn; try exact Hr.
  - by apply flash_failure_granted.
  - destruct (vf profile) as [u|msg|] eqn:Hv; cbn; try exact Hr.
    + unfold req_logIn. destruct (store_up e); cbn.
      * destruct Hr as [Hst _]. split.
        -- apply only_granted_insert; [|by apply only_granted_delete].
           intros u' [= <-]. by apply (Hvf profile).
        -- intros s u' [= <-] [= <-]. by apply (Hvf profile).
      * destruct Hr as [Hst _]. split; [exact Hst|]. by intros s u' [= <-].
    + by apply (flash_failure_granted (Some msg)).
Qed.

Lemma keeps_logout : keeps_granted logout.
Proof.
  intros e r Hr. unfold logout, req_logout.
  destruct (session r) as [s|] eqn:Hs; cbn; [|exact Hr].
  destruct (store_up e) eqn:Hup; cbn; [|exact Hr].
  unfold session_destroy. rewrite Hup. cbn.
  destruct Hr as [Hst _]. split; [|by intros s' u [=]].
  apply only_granted_delete, only_granted_delete.
  apply only_granted_insert; [by intros u [=] | exact Hst].
Qed.

Lemma serve_granted (h : Handler) (e : Env) (st : gmap string Session) :
  keeps_granted h -> only_granted st -> only_granted (store_after (serve h e st)).
Proof.
  intros Hh Hst. unfold serve.
  destruct (session_middleware e st) as [r|] eqn:Hr; [|exact Hst].
  pose proof (passport_session_granted r (middleware_granted e st r Hst Hr)) as Hg.
  specialize (Hh e (passport_session r) Hg).
  destruct (h e (passport_session r)) as [r' resp]. cbn in *.
  by apply commit_granted.
Qed.

Lemma run_granted {A : Type} (table : A -> Handler) (trace : list (Env * A)) :
  (forall a, keeps_granted (table a)) ->
  forall st, only_granted st -> only_granted (run table trace st).
Proof.
  intros Htable. induction trace as [|q trace IH]; intros st Hst; [exact Hst|].
  unfold run. cbn [fold_left]. apply IH. by apply serve_granted.
Qed.

Lemma verify_granted (profile : Profile) (u : User) :
  verify profile = done_user u -> granted u.
Proof. intros Hv. by destruct (verify_user_granted profile u Hv). Qed.

Lemma server_routes_keep_granted (rt : ServerJs.Route) :
  keeps_granted (ServerJs.app rt).
Proof.
  destruct keeps_read_handlers as (Hi & Hd & _).
  destruct rt; cbn.
  - apply keeps_auth_google_callback, verify_granted.
  - apply keeps_auth_failure.
  - by apply keeps_ensureLoggedIn.
  - by apply keeps_ensureLoggedIn.
  - apply keeps_logout.
Qed.

Lemma part_001_routes_keep_granted (rt : Part001.Route) :
  keeps_granted (Part001.app rt).
Proof.
  destruct keeps_read_handlers as (_ & _ & Hd).
  destruct rt; cbn.
  - apply keeps_auth_google_callback. intros profile u.
    rewrite two_if_verify. apply verify_granted.
  - apply keeps_auth_failure.
  - by apply keeps_ensureLoggedIn.
  - apply keeps_logout.
Qed.

(** Whatever requests are served, in whatever order, by whatever clients
    and with whatever provider answers, a store that holds only users the
    policy admits (the empty store, for one) still does afterwards: no
    route ever stores a user with another role or a rejected email.  This
    holds for the routes of server.js and for those of part_001. *)
Theorem store_holds_granted_users_only (st : gmap string Session) :
  only_granted st ->
  (forall trace, only_granted (run ServerJs.app trace st))
  /\ (forall trace, only_granted (run Part001.app trace st)).
Proof.
  intros Hst. split; intros trace.
  - by apply run_granted; [apply server_routes_keep_granted|].
  - by apply run_granted; [apply part_001_routes_keep_granted|].
Qed.

Lemma store_holds_granted_users_only_witness :
  only_granted ∅
  /\ only_granted
       (run ServerJs.app
          [(Scenario.request 0 true None,
            ServerJs.GET_auth_google_callback (exchange_profile Scenario.student));
           (Scenario.request 1 true None,
            ServerJs.GET_auth_google_callback (exchange_profile Scenario.outsider));
           (Scenario.request 2 true (Some "sid-b"), ServerJs.GET_logout)] ∅).
Proof.
  split; [exact only_granted_empty|].
  exact (proj1 (store_holds_granted_users_only ∅ only_granted_empty) _).
Defined.

Lemma guard_cases (h : Handler) (e : Env) (st : gmap string Session) :
  only_granted st ->
  response (serve (ensureLoggedIn h) e st) = error_response
  \/ response (serve (ensureLoggedIn h) e st) = redirect "/index.html"
  \/ exists r u, user r = Some u /\ granted u
                 /\ response (serve (ensureLoggedIn h) e st) = snd (h e r).
Proof.
  intros Hst. unfold serve.
  destruct (session_middleware e st) as [r|] eqn:Hr; [|by left].
  right.
  destruct (middleware_granted e st r Hst Hr) as [_ Hsess].
  destruct (middleware_shape e st r Hr) as (s & Hs & _).
  unfold passport_session, ensureLoggedIn, isAuthenticated. rewrite Hs.
  destruct (passport_user s) as [u|] eqn:Hu; cbn; [|by left].
  right. exists (set_user (Some u) r), u.
  split; [reflexivity|]. split; [by apply (Hsess s u)|].
  by destruct (h e (set_user (Some u) r)).
Qed.

(** After any sequence of requests to the routes of server.js, starting
    from an empty store, every object that /session-info returns describes
    a user the policy admits, with the role "student". *)
Theorem session_info_reports_students_only
    (trace : list (Env * ServerJs.Route)) (e : Env)
    (body : list (string * JSON)) :
  response (serve session_info e (run ServerJs.app trace ∅)) = json body ->
  exists u,
    permitted (email u)
    /\ body = [("loggedIn", JBool true); ("email", JString (email u));
               ("name", JString (name u)); ("role", JString "student")].
Proof.
  intros Hresp.
  assert (Hst : only_granted (run ServerJs.app trace ∅)).
  { apply run_granted; [apply server_routes_keep_granted|].
    apply only_granted_empty. }
  destruct (guard_cases session_info_handler e _ Hst)
    as [Herr|[Hred|(r & u & Hu & [Hrole Hperm] & Hh)]];
    unfold session_info in Hresp.
  - rewrite Herr in Hresp. discriminate.
  - rewrite Hred in Hresp. discriminate.
  - rewrite Hh in Hresp. unfold session_info_handler in Hresp.
    rewrite Hu in Hresp. cbn in Hresp. injection Hresp as <-.
    exists u. split; [exact Hperm|]. by rewrite Hrole.
Qed.

Lemma session_info_reports_students_only_witness :
  let trace :=
    [(Scenario.request 0 true None,
      ServerJs.GET_auth_google_callback (exchange_profile Scenario.student))] in
  let e := Scenario.request 1 true (Some "sid-b") in
  response (serve session_info e (run ServerJs.app trace ∅))
  = json [("loggedIn", JBool true);
          ("email", JString "a@stu.pathfinder-mm.org");
          ("name", JString "A Student"); ("role", JString "student")]
  /\ exists u,
       permitted (email u)
       /\ [("loggedIn", JBool true);
           ("email", JString "a@stu.pathfinder-mm.org");
           ("name", JString "A Student"); ("role", JString "student")]
          = [("loggedIn", JBool true); ("email", JString (email u));
             ("name", JString (name u)); ("role", JString "student")].
Proof.
  intros trace e. split; [reflexivity|].
  exact (session_info_reports_students_only trace e _ eq_refl).
Defined.

(** After any sequence of requests to the routes of part_001, starting from
    an empty store, every page that /dashboard sends carries the student
    block: the generic block is never rendered. *)
Theorem dashboard_generic_block_unreachable
    (trace : list (Env * Part001.Route)) (e : Env) (html : string) :
  response (serve InlineDashboard.dashboard e (run Part001.app trace ∅))
  = send html ->
  exists u,
    permitted (email u)
    /\ html
       = InlineDashboard.page_head +:+ name u +:+ InlineDashboard.after_name
           +:+ email u +:+ InlineDashboard.after_email +:+ "student"
           +:+ InlineDashboard.after_role +:+ InlineDashboard.student_block
           +:+ InlineDashboard.page_tail.
Proof.
  intros Hresp.
  assert (Hst : only_granted (run Part001.app trace ∅)).
  { apply run_granted; [apply part_001_routes_keep_granted|].
    apply only_granted_empty. }
  destruct (guard_cases InlineDashboard.dashboard_handler e _ Hst)
    as [Herr|[Hred|(r & u & Hu & [Hrole Hperm] & Hh)]];
    unfold InlineDashboard.dashboard in Hresp.
  - rewrite Herr in Hresp. discriminate.
  - rewrite Hred in Hresp. discriminate.
  - rewrite Hh in Hresp. unfold InlineDashboard.dashboard_handler in Hresp.
    rewrite Hu in Hresp. cbn in Hresp. injection Hresp as <-.
    exists u. split; [exact Hperm|].
    unfold InlineDashboard.page, InlineDashboard.role_block. by rewrite Hrole.
Qed.

Lemma dashboard_generic_block_unreachable_witness :
  let trace :=
    [(Scenario.request 0 true None,
      Part001.GET_auth_google_callback (exchange_profile Scenario.student))] in
  let e := Scenario.request 1 true (Some "sid-b") in
  response (serve InlineDashboard.dashboard e (run Part001.app trace ∅))
  = send (InlineDashboard.page Scenario.student_user)
  /\ exists u,
       permitted (email u)
       /\ InlineDashboard.page Scenario.student_user
          = InlineDashboard.page_head +:+ name u +:+ InlineDashboard.after_name
              +:+ email u +:+ InlineDashboard.after_email +:+ "student"
              +:+ InlineDashboard.after_role +:+ InlineDashboard.student_block
              +:+ InlineDashboard.page_tail.
Proof.
  intros trace e. split; [reflexivity|].
  exact (dashboard_generic_block_unreachable trace e _ eq_refl).
Defined.
